(** * WeatherData: the datastore cache and BigQuery archive of Arable weather data

    A shallow embedding of [cc/weather/weather_data.py]: the read path
    [get_computed_weather_data] (fetch, decode, sort, duplicate removal) and
    the write path [save_computed] with its private helper [__save_DS]; then
    the raw-data writers [save_raw_five_min] and [save_raw_aux], and the
    device registry ([get_arable_devices], [get_device_details],
    [save_device], [__save_device_to_DS]).

    Python values are modelled as follows.
    - A decoded JSON object is a [gmap string pyval]; its values are the
      scalars [None], [bool], [int], [float] and [str].  A float is NaN, an
      infinity or a finite number, which is kept as the rational it denotes:
      [<], [>=] and [==] on finite floats, and between them and ints, are
      the exact comparisons of those rationals.  Nested arrays and objects
      are not modelled.
    - An exception is a value of [exn]; a computation that may raise has a
      result in [res].
    - The external collaborators ([datastore], [bigquery], [logging]) are
      calls that act on an abstract world and are recorded in a trace. *)

From Stdlib Require Import ZArith QArith String List Lia Lqa.
From stdpp Require Import base option list gmap strings fin_maps sorting.

Open Scope string_scope.
Open Scope Z_scope.
Open Scope nat_scope.

(** ** Python values *)

(** A float: [json.loads] reads [NaN], [Infinity] and [-Infinity] besides the
    numbers with a fraction or an exponent. *)
Inductive pyfloat : Type :=
| FNaN
| FInf (negative : bool)
| FFinite (q : Q).

Inductive pyval : Type :=
| PNone
| PBool (b : bool)
| PInt (n : Z)
| PFloat (f : pyfloat)
| PStr (s : string).

(** A dict as [json.loads] builds it from a JSON object. *)
Abbreviation record := (gmap string pyval).

Inductive exn : Type :=
| KeyError (key : string)
| TypeError (msg : string)
| ValueError (msg : string)
| JSONDecodeError (doc : string)
| StoreError (cls msg : string).

Inductive res (A : Type) : Type :=
| Ok (a : A)
| Raise (e : exn).
Arguments Ok {A} a.
Arguments Raise {A} e.

#[global] Instance res_ret : MRet res := fun A a => Ok a.
#[global] Instance res_bind : MBind res := fun A B f m =>
  match m with
  | Ok a => f a
  | Raise e => Raise e
  end.

(** [str(e)], as an f-string formats an exception. *)
Definition exn_str (e : exn) : string :=
  match e with
  | KeyError key => "'" ++ key ++ "'"
  | TypeError msg => msg
  | ValueError msg => msg
  | JSONDecodeError doc => "Expecting value: " ++ doc
  | StoreError _ msg => msg
  end.

(** How two numbers compare; NaN compares with nothing, itself included. *)
Definition float_cmp (a b : pyfloat) : option comparison :=
  match a, b with
  | FNaN, _ | _, FNaN => None
  | FInf true, FInf true => Some Eq
  | FInf true, _ => Some Lt
  | _, FInf true => Some Gt
  | FInf false, FInf false => Some Eq
  | FInf false, _ => Some Gt
  | _, FInf false => Some Lt
  | FFinite p, FFinite q => Some (Qcompare p q)
  end.

Definition float_lt (a b : pyfloat) : bool :=
  match float_cmp a b with
  | Some Lt => true
  | _ => false
  end.

Definition float_le (a b : pyfloat) : bool :=
  match float_cmp a b with
  | Some Lt | Some Eq => true
  | _ => false
  end.

Definition float_eq (a b : pyfloat) : bool :=
  match float_cmp a b with
  | Some Eq => true
  | _ => false
  end.

(** The number a value stands for.  [bool] is a subclass of [int]: [True] is
    1 and [False] is 0; an int compares with a float by its exact value. *)
Definition num_of (v : pyval) : option pyfloat :=
  match v with
  | PBool b => Some (FFinite (if b then 1%Q else 0%Q))
  | PInt n => Some (FFinite (inject_Z n))
  | PFloat f => Some f
  | _ => None
  end.

(** [a == b] on scalars. *)
Definition py_eq (a b : pyval) : bool :=
  match a, b with
  | PNone, PNone => true
  | PStr s, PStr t => String.eqb s t
  | _, _ =>
      match num_of a, num_of b with
      | Some x, Some y => float_eq x y
      | _, _ => false
      end
  end.

(** [a is b or a == b], as a container compares its items.  Every NaN that
    [json.loads] reads is the one object [json.decoder.NaN]; for other values
    that are the same object [==] holds anyway. *)
Definition py_is_or_eq (a b : pyval) : bool :=
  match a, b with
  | PFloat FNaN, PFloat FNaN => true
  | _, _ => py_eq a b
  end.

Definition not_supported (op : string) : exn :=
  TypeError ("'" ++ op ++ "' not supported between instances").

(** [a < b]: numbers with numbers (false when one is NaN), strings with
    strings (by code point, which is the byte order of their UTF-8 encoding);
    anything else, [None] included, raises [TypeError]. *)
Definition py_lt (a b : pyval) : res bool :=
  match a, b with
  | PStr s, PStr t => Ok (String.ltb s t)
  | _, _ =>
      match num_of a, num_of b with
      | Some x, Some y => Ok (float_lt x y)
      | _, _ => Raise (not_supported "<")
      end
  end.

(** [a >= b]. *)
Definition py_ge (a b : pyval) : res bool :=
  match a, b with
  | PStr s, PStr t => Ok (String.leb t s)
  | _, _ =>
      match num_of a, num_of b with
      | Some x, Some y => Ok (float_le y x)
      | _, _ => Raise (not_supported ">=")
      end
  end.

(** [d[key]] *)
Definition dict_getitem (d : record) (key : string) : res pyval :=
  match d !! key with
  | Some v => Ok v
  | None => Raise (KeyError key)
  end.

(** [d.get(key)] *)
Definition dict_get (d : record) (key : string) : pyval :=
  default PNone (d !! key).

(** [a == b] on dicts: the same number of keys, and every key of [a] is a key
    of [b] with the same or an equal value. *)
Definition dict_eq (a b : record) : bool :=
  Nat.eqb (size a) (size b) &&
  forallb (fun kv => match b !! kv.1 with
                     | Some w => py_is_or_eq kv.2 w
                     | None => false
                     end) (map_to_list a).

(** [l.remove(x)]: deletes the first item equal to [x]. *)
Fixpoint list_remove (x : record) (l : list record) : res (list record) :=
  match l with
  | [] => Raise (ValueError "list.remove(x): x not in list")
  | y :: l' =>
      if dict_eq y x then Ok l'
      else l'' ← list_remove x l'; Ok (y :: l'')
  end.

(** ** [sorted(l, key=..., reverse=True)]

    The builtin is a stable sort that compares keys with [<] only.  It is
    modelled by a stable insertion sort into descending order; a comparison
    that raises aborts the sort.  The result is a permutation of the input
    ([sort_desc_perm]), with equal keys in their input order
    ([sort_desc_stable]) and, when no key is NaN, in descending order
    ([sort_desc_sorted]); as in the builtin, a sort of two or more items
    compares every key at least once ([sorted_reverse_classes]).  With a NaN
    among the keys [<] is no order, and where the builtin leaves each item
    depends on its algorithm: nothing below relies on the place of an item
    then, except at the two keys of
    [get_computed_weather_data_nan_not_descending], where either place
    breaks the order. *)

Definition keyed : Type := pyval * record.

Fixpoint insert_desc (x : keyed) (l : list keyed) : res (list keyed) :=
  match l with
  | [] => Ok [x]
  | y :: l' =>
      b ← py_lt x.1 y.1;
      if b : bool then r ← insert_desc x l'; Ok (y :: r)
      else Ok (x :: y :: l')
  end.

Fixpoint sort_desc (l : list keyed) : res (list keyed) :=
  match l with
  | [] => Ok []
  | x :: l' => s ← sort_desc l'; insert_desc x s
  end.

Definition sorted_reverse (l : list record) (key : record -> pyval)
  : res (list record) :=
  s ← sort_desc (map (fun r => (key r, r)) l); Ok (map snd s).

(** ** The duplicate-removal loop

    [for d in sorted_rows] walks the list through an iterator that holds an
    index [i]: each round reads [sorted_rows[i]] from the list as it is at
    that moment and advances [i]; the loop ends when [i] is past the end.
    [sorted_rows.remove(d)] shortens that same list while it is walked.  The
    first argument bounds the number of rounds (one per item is enough, see
    [remove_duplicates_loop_rounds]). *)

Fixpoint remove_duplicates_loop (rounds i : nat) (previous_ts : pyval)
    (sorted_rows : list record) : res (list record) :=
  match rounds with
  | O => Ok sorted_rows
  | S rounds' =>
      match sorted_rows !! i with
      | None => Ok sorted_rows
      | Some d =>
          t ← dict_getitem d "time";
          if py_eq t previous_ts then
            sorted_rows' ← list_remove d sorted_rows;
            remove_duplicates_loop rounds' (S i) previous_ts sorted_rows'
          else
            previous_ts' ← dict_getitem d "time";
            remove_duplicates_loop rounds' (S i) previous_ts' sorted_rows
      end
  end.

Definition remove_duplicate_timestamps (sorted_rows : list record)
  : res (list record) :=
  remove_duplicates_loop (length sorted_rows) 0 PNone sorted_rows.

(** ** Serialized payloads

    The datastore holds text.  A payload is represented by what [json.loads]
    makes of it: the dict of a JSON object, or a decode error. *)

Inductive payload : Type :=
| JsonText (r : record)
| NotJson (doc : string).

Definition json_loads (row : payload) : res record :=
  match row with
  | JsonText r => Ok r
  | NotJson doc => Raise (JSONDecodeError doc)
  end.

Definition json_dumps (data : record) : payload := JsonText data.

(** [for row in rows: row = json.loads(row); sorted_rows.append(row)] *)
Fixpoint decode_rows (rows : list payload) (sorted_rows : list record)
  : res (list record) :=
  match rows with
  | [] => Ok sorted_rows
  | row :: rows' =>
      row' ← json_loads row;
      decode_rows rows' (sorted_rows ++ [row'])
  end.

(** ** The collaborators and the effects of a call *)

Inductive event : Type :=
| EGetShardedEntityRange (kind : option string)
    (data_type device start_date end_date : string) (r : res (list payload))
| ESaveDictToEntity (kind : option string) (device property : string)
    (value : payload) (r : res unit)
| EBigquerySave (table name timestamp : string) (data : record) (r : res bool)
| ELogError (msg : string).

(** What the key/value store and the analytics store answer, as functions of
    the world they live in.  A store call returns or raises. *)
Record Stores (World : Type) : Type := {
  store_get_sharded_entity_range :
    option string -> string -> string -> string -> string ->
    World -> res (list payload) * World;
  store_save_dict_to_entity :
    option string -> string -> string -> payload -> World -> res unit * World;
  store_bigquery_save :
    string -> string -> string -> record -> World -> res bool * World
}.
Arguments store_get_sharded_entity_range {World} _.
Arguments store_save_dict_to_entity {World} _.
Arguments store_bigquery_save {World} _.

Record state (World : Type) : Type := {
  world : World;
  trace : list event
}.
Arguments world {World} _.
Arguments trace {World} _.
Arguments Build_state {World} _ _.

(** The object: [self.__name] and [self.__kind]. *)
Record WeatherData : Type := {
  __name : string;
  __kind : option string
}.

Section WeatherData.
Context {World : Type}.
Variable env : Stores World.

Definition M (A : Type) : Type := state World -> res A * state World.

#[global] Instance M_ret : MRet M := fun A a st => (Ok a, st).
#[global] Instance M_bind : MBind M := fun A B f m st =>
  match m st with
  | (Ok a, st') => f a st'
  | (Raise e, st') => (Raise e, st')
  end.

Definition lift {A} (r : res A) : M A := fun st => (r, st).

(** [try: body  except Exception as e: handler e] *)
Definition try_except {A} (body : M A) (handler : exn -> M A) : M A :=
  fun st =>
    match body st with
    | (Ok a, st') => (Ok a, st')
    | (Raise e, st') => handler e st'
    end.

Definition record_call {A} (call : World -> res A * World)
    (ev : res A -> event) : M A :=
  fun st =>
    let (r, w) := call (world st) in
    (r, Build_state w (trace st ++ [ev r])).

Definition logging_error (msg : string) : M unit :=
  fun st => (Ok tt, Build_state (world st) (trace st ++ [ELogError msg])).

Definition datastore_get_sharded_entity_range (kind : option string)
    (data_type device start_date end_date : string) : M (list payload) :=
  record_call
    (store_get_sharded_entity_range env kind data_type device start_date end_date)
    (EGetShardedEntityRange kind data_type device start_date end_date).

Definition datastore_save_dict_to_entity (kind : option string)
    (device property : string) (value : payload) : M unit :=
  record_call (store_save_dict_to_entity env kind device property value)
    (ESaveDictToEntity kind device property value).

Definition bigquery_save (table name timestamp : string) (data : record)
  : M bool :=
  record_call (store_bigquery_save env table name timestamp data)
    (EBigquerySave table name timestamp data).

(** *** [get_computed_weather_data] *)
Definition get_computed_weather_data (self : WeatherData)
    (start_date end_date arable_device_name : string) (hourly : bool)
  : M (list record) :=
  rows ← datastore_get_sharded_entity_range (__kind self) "computed"
           arable_device_name start_date end_date;
  sorted_rows ← lift (decode_rows rows []);
  sorted_rows ← lift (sorted_reverse sorted_rows (fun r => dict_get r "time"));
  lift (remove_duplicate_timestamps sorted_rows).

(** *** [__save_DS] *)
Definition __save_DS (self : WeatherData) (data_type device_name : option string)
    (data : option record) : M bool :=
  try_except
    (match data_type, device_name, data with
     | Some data_type', Some device_name', Some data' =>
         _ ← datastore_save_dict_to_entity (__kind self) device_name'
               data_type' (json_dumps data');
         mret true
     | _, _, _ =>
         _ ← logging_error (__name self ++ " __save_DS: invalid args.");
         mret false
     end)
    (fun e =>
       _ ← logging_error (__name self ++ " __save_DS: " ++ exn_str e);
       mret false).

(** *** [save_computed]

    The guard [timestamp is None or name is None or 0 == len(data)] is
    evaluated left to right; [len(None)] raises [TypeError]. *)
Definition save_computed (self : WeatherData) (timestamp name : option string)
    (data : option record) : M bool :=
  let invalid_args : M bool :=
    _ ← logging_error (__name self ++ " save_computed: invalid args");
    mret false in
  try_except
    (match timestamp, name, data with
     | None, _, _ => invalid_args
     | Some _, None, _ => invalid_args
     | Some _, Some _, None =>
         lift (Raise (TypeError "object of type 'NoneType' has no len()"))
     | Some timestamp', Some name', Some data' =>
         if Nat.eqb 0 (size data') then invalid_args
         else
           saved ← bigquery_save "computed" name' timestamp' data';
           if negb saved then
             _ ← logging_error
                   (__name self ++ " save_computed: BQ save failed.");
             mret false
           else
             stored ← __save_DS self (Some "computed") name data;
             if negb stored then
               _ ← logging_error
                     (__name self ++ " save_computed: DS save failed.");
               mret false
             else mret true
     end)
    (fun e =>
       _ ← logging_error ("save_computed: " ++ exn_str e);
       mret false).

End WeatherData.

(** ** The raw-data writers: BigQuery only *)

Section RawData.
Context {World : Type}.
Variable env : Stores World.

(** *** [save_raw_five_min] *)
Definition save_raw_five_min (self : WeatherData)
    (timestamp name : option string) (data : option record) : M bool :=
  let invalid_args : M bool :=
    _ ← logging_error (__name self ++ " save_raw_five_min: invalid args");
    mret false in
  try_except
    (match timestamp, name, data with
     | None, _, _ => invalid_args
     | Some _, None, _ => invalid_args
     | Some _, Some _, None =>
         lift (Raise (TypeError "object of type 'NoneType' has no len()"))
     | Some timestamp', Some name', Some data' =>
         if Nat.eqb 0 (size data') then invalid_args
         else
           saved ← bigquery_save env "raw_five_min" name' timestamp' data';
           if negb saved then
             _ ← logging_error
                   (__name self ++ " save_raw_five_min: BQ save failed.");
             mret false
           else mret true
     end)
    (fun e =>
       _ ← logging_error ("save_raw_five_min: " ++ exn_str e);
       mret false).

(** *** [save_raw_aux] *)
Definition save_raw_aux (self : WeatherData)
    (timestamp name : option string) (data : option record) : M bool :=
  let invalid_args : M bool :=
    _ ← logging_error (__name self ++ " save_raw_aux: invalid args");
    mret false in
  try_except
    (match timestamp, name, data with
     | None, _, _ => invalid_args
     | Some _, None, _ => invalid_args
     | Some _, Some _, None =>
         lift (Raise (TypeError "object of type 'NoneType' has no len()"))
     | Some timestamp', Some name', Some data' =>
         if Nat.eqb 0 (size data') then invalid_args
         else
           saved ← bigquery_save env "raw_aux" name' timestamp' data';
           if negb saved then
             _ ← logging_error
                   (__name self ++ " save_raw_aux: BQ save failed.");
             mret false
           else mret true
     end)
    (fun e =>
       _ ← logging_error ("save_raw_aux: " ++ exn_str e);
       mret false).

End RawData.

(** ** The device registry

    [get_arable_devices], [get_device_details], [save_device] and its private
    helper [__save_device_to_DS] use three more datastore calls, and hand
    [bigquery.save] the device's name as it comes out of the dict (any JSON
    scalar).  Their calls are recorded in a trace of their own.  The
    [device_dict] argument is a dict, as annotated. *)

Inductive device_event : Type :=
| EGetKeys (kind : option string) (r : res (list string))
| EGetByKey (kind : option string) (key : string) (r : res record)
| ESaveWithKey (kind : option string) (key : pyval) (value : payload)
    (r : res unit)
| EDeviceBigquerySave (table : string) (name : pyval) (timestamp : string)
    (data : record) (r : res bool)
| EDeviceLogError (msg : string).

Record DeviceStores (World : Type) : Type := {
  store_get_keys : option string -> World -> res (list string) * World;
  store_get_by_key : option string -> string -> World -> res record * World;
  store_save_with_key :
    option string -> pyval -> payload -> World -> res unit * World;
  store_device_bigquery_save :
    string -> pyval -> string -> record -> World -> res bool * World
}.
Arguments store_get_keys {World} _.
Arguments store_get_by_key {World} _.
Arguments store_save_with_key {World} _.
Arguments store_device_bigquery_save {World} _.

Record device_state (World : Type) : Type := {
  dworld : World;
  dtrace : list device_event
}.
Arguments dworld {World} _.
Arguments dtrace {World} _.
Arguments Build_device_state {World} _ _.

Section Devices.
Context {World : Type}.
Variable denv : DeviceStores World.

Definition MD (A : Type) : Type :=
  device_state World -> res A * device_state World.

#[global] Instance MD_ret : MRet MD := fun A a st => (Ok a, st).
#[global] Instance MD_bind : MBind MD := fun A B f m st =>
  match m st with
  | (Ok a, st') => f a st'
  | (Raise e, st') => (Raise e, st')
  end.

Definition device_try_except {A} (body : MD A) (handler : exn -> MD A)
  : MD A :=
  fun st =>
    match body st with
    | (Ok a, st') => (Ok a, st')
    | (Raise e, st') => handler e st'
    end.

Definition device_call {A} (call : World -> res A * World)
    (ev : res A -> device_event) : MD A :=
  fun st =>
    let (r, w) := call (dworld st) in
    (r, Build_device_state w (dtrace st ++ [ev r])).

Definition device_logging_error (msg : string) : MD unit :=
  fun st =>
    (Ok tt, Build_device_state (dworld st) (dtrace st ++ [EDeviceLogError msg])).

Definition datastore_get_keys (kind : option string) : MD (list string) :=
  device_call (store_get_keys denv kind) (EGetKeys kind).

Definition datastore_get_by_key (kind : option string) (key : string)
  : MD record :=
  device_call (store_get_by_key denv kind key) (EGetByKey kind key).

Definition datastore_save_with_key (kind : option string) (key : pyval)
    (value : payload) : MD unit :=
  device_call (store_save_with_key denv kind key value)
    (ESaveWithKey kind key value).

Definition device_bigquery_save (table : string) (name : pyval)
    (timestamp : string) (data : record) : MD bool :=
  device_call (store_device_bigquery_save denv table name timestamp data)
    (EDeviceBigquerySave table name timestamp data).

(** *** [get_arable_devices] *)
Definition get_arable_devices (self : WeatherData) : MD (list string) :=
  datastore_get_keys (__kind self).

(** *** [__save_device_to_DS] *)
Definition __save_device_to_DS (self : WeatherData)
    (data_type : option string) (device_name : pyval) (data : option record)
  : MD bool :=
  device_try_except
    (match data_type, device_name, data with
     | None, _, _ | Some _, PNone, _ | Some _, _, None =>
         _ ← device_logging_error
               (__name self ++ " __save_device_to_DS: invalid args.");
         mret false
     | Some _, _, Some data' =>
         _ ← datastore_save_with_key (__kind self) device_name
               (json_dumps data');
         mret true
     end)
    (fun e =>
       _ ← device_logging_error
             (__name self ++ " __save_device_to_DS: " ++ exn_str e);
       mret false).

(** *** [save_device] *)
Definition save_device (self : WeatherData) (timestamp : option string)
    (device_dict : record) : MD bool :=
  let invalid_args : MD bool :=
    _ ← device_logging_error (__name self ++ " save_device: invalid args");
    mret false in
  device_try_except
    (let name := dict_get device_dict "name" in
     match timestamp, name with
     | None, _ => invalid_args
     | Some _, PNone => invalid_args
     | Some timestamp', _ =>
         if Nat.eqb 0 (size device_dict) then invalid_args
         else
           saved ← device_bigquery_save "device" name timestamp' device_dict;
           if negb saved then
             _ ← device_logging_error
                   (__name self ++ " save_device: BQ save failed.");
             mret false
           else
             stored ← __save_device_to_DS self (Some "device") name
                        (Some device_dict);
             if negb stored then
               _ ← device_logging_error
                     (__name self ++ " save_device: DS save failed.");
               mret false
             else mret true
     end)
    (fun e =>
       _ ← device_logging_error ("save_device: " ++ exn_str e);
       mret false).

(** *** [get_device_details] *)
Definition get_device_details (self : WeatherData) (device_key : string)
  : MD record :=
  details ← datastore_get_by_key (__kind self) device_key;
  if Nat.eqb 0 (size details) then mret ∅ else mret details.

End Devices.


(** * Vocabulary of the properties *)

(** The two classes of values that [<] orders. *)
Inductive cmp_class : Type := CNum | CStr.

Definition class_of (v : pyval) : option cmp_class :=
  match v with
  | PNone => None
  | PBool _ | PInt _ | PFloat _ => Some CNum
  | PStr _ => Some CStr
  end.

Definition is_nan (v : pyval) : bool :=
  match v with
  | PFloat FNaN => true
  | _ => false
  end.

(** The order the sort leaves between two keyed items. *)
Definition desc (x y : keyed) : Prop := py_ge x.1 y.1 = Ok true.

(** [A.time >= B.time] for two records that both carry a time. *)
Definition time_ge (a b : record) : Prop :=
  exists ta tb,
    a !! "time" = Some ta /\ b !! "time" = Some tb /\ py_ge ta tb = Ok true.

(** A record whose time is a number ([k = CNum]) or a string ([k = CStr]). *)
Definition has_time_of (k : cmp_class) (r : record) : Prop :=
  exists t, r !! "time" = Some t /\ class_of t = Some k.

(** What [get_computed_weather_data] makes of the fetched rows. *)
Definition series_of_rows (rows : list payload) : res (list record) :=
  sorted_rows ← decode_rows rows [];
  sorted_rows ← sorted_reverse sorted_rows (fun r => dict_get r "time");
  remove_duplicate_timestamps sorted_rows.

(** A store call that raised. *)
Definition store_raised (ev : event) : bool :=
  match ev with
  | EGetShardedEntityRange _ _ _ _ _ (Raise _) => true
  | ESaveDictToEntity _ _ _ _ (Raise _) => true
  | EBigquerySave _ _ _ _ (Raise _) => true
  | _ => false
  end.

Definition is_datastore_write (ev : event) : bool :=
  match ev with
  | ESaveDictToEntity _ _ _ _ _ => true
  | _ => false
  end.

(** A call to the key/value store or to the analytics store. *)
Definition is_store_call (ev : event) : bool :=
  match ev with
  | ELogError _ => false
  | _ => true
  end.

Module Scenario.

(** The payload [{"time": time, "t": t}]. *)
Definition reading (time : string) (t : Z) : record :=
  {[ "time" := PStr time; "t" := PInt t ]}.

(** Stores that give the same answers whatever they are asked. *)
Definition fixed_stores (rows : res (list payload)) (saved : res bool)
    (stored : res unit) : Stores unit :=
  {| store_get_sharded_entity_range := fun _ _ _ _ _ w => (rows, w);
     store_save_dict_to_entity := fun _ _ _ _ w => (stored, w);
     store_bigquery_save := fun _ _ _ _ w => (saved, w) |}.

Definition reads (rows : list payload) : Stores unit :=
  fixed_stores (Ok rows) (Ok true) (Ok tt).

Definition weather : WeatherData :=
  {| __name := "weather_data.py"; __kind := Some "Weather" |}.

Definition start : state unit := Build_state tt [].

Definition jan1 : string := "2024-01-01T00:00".
Definition jan2 : string := "2024-01-02T00:05".

End Scenario.

Import Scenario.

(** Two records whose times are equal ([==]). *)
Definition same_time (a b : record) : Prop :=
  exists ta tb,
    a !! "time" = Some ta /\ b !! "time" = Some tb /\ py_eq ta tb = true.

(** A record with a ['time'] that is not [None]. *)
Definition has_time (r : record) : Prop :=
  exists t, r !! "time" = Some t /\ t <> PNone.

(** A record whose ['time'] is a string, or a number other than NaN: the
    values that [<], [>=] and [==] order. *)
Definition has_ordered_time (r : record) : Prop :=
  exists t k, r !! "time" = Some t /\ class_of t = Some k /\ is_nan t = false.

(** No two records of the list, at different places, have equal times. *)
Definition distinct_times (l : list record) : Prop :=
  forall i j a b,
    i <> j -> l !! i = Some a -> l !! j = Some b ->
    py_eq (dict_get a "time") (dict_get b "time") = false.

(** A call to the datastore or to BigQuery, in the trace of the device
    registry. *)
Definition is_device_store_call (ev : device_event) : bool :=
  match ev with
  | EDeviceLogError _ => false
  | _ => true
  end.

Definition is_save_with_key (ev : device_event) : bool :=
  match ev with
  | ESaveWithKey _ _ _ _ => true
  | _ => false
  end.

Module ReadScenario.

Definition three_readings : list record :=
  [reading jan2 10; reading jan1 5; reading jan2 99].

(** A read of the first two days of 2024 for device [d1], from stores that
    hold [rows]; and the state that read leaves. *)
Definition fetch (rows : list payload) : res (list record) * state unit :=
  get_computed_weather_data (reads rows) weather "2024-01-01" "2024-01-02"
    "d1" true start.

Definition fetched (rows : list payload) : state unit :=
  Build_state tt
    [EGetShardedEntityRange (Some "Weather") "computed" "d1" "2024-01-01"
       "2024-01-02" (Ok rows)].

End ReadScenario.

Import ReadScenario.

Module DeviceScenario.

Definition fixed_device_stores (saved : res bool) (stored : res unit)
  : DeviceStores unit :=
  {| store_get_keys := fun _ w => (Ok [], w);
     store_get_by_key := fun _ _ w => (Ok ∅, w);
     store_save_with_key := fun _ _ _ w => (stored, w);
     store_device_bigquery_save := fun _ _ _ _ w => (saved, w) |}.

Definition device_start : device_state unit := Build_device_state tt [].

(** The device dict [{"name": "d1", "model": "Mark 2"}]. *)
Definition mark2 : record :=
  {[ "name" := PStr "d1"; "model" := PStr "Mark 2" ]}.

End DeviceScenario.

Import DeviceScenario.

Ltac py_cases a :=
  destruct a as [|?|?|?|?]; simpl in *; try discriminate; simplify_eq; eauto.

Ltac run_write_path :=
  unfold save_computed, __save_DS, try_except, bigquery_save,
    datastore_save_dict_to_entity, record_call, logging_error, lift,
    mbind, M_bind, mret, M_ret; simpl.

Ltac py_unfold :=
  cbv beta iota delta [py_eq py_is_or_eq py_ge py_lt num_of class_of is_nan]
    in *.

Ltac q_cases :=
  repeat match goal with
  | H : context [Qcompare ?p ?q] |- _ =>
      let E := fresh "E" in
      destruct (Qcompare p q) eqn:E;
      [apply Qeq_alt in E | apply Qlt_alt in E | apply Qgt_alt in E]
  | |- context [Qcompare ?p ?q] =>
      let E := fresh "E" in
      destruct (Qcompare p q) eqn:E;
      [apply Qeq_alt in E | apply Qlt_alt in E | apply Qgt_alt in E]
  end.

Ltac float_cases :=
  repeat match goal with f : pyfloat |- _ => destruct f as [|[|]|?] end;
  cbv beta iota delta [float_lt float_le float_eq float_cmp] in *;
  try discriminate; try done;
  q_cases; try discriminate; try done; try lra.

Ltac run_raw_path :=
  unfold save_raw_five_min, save_raw_aux, try_except, bigquery_save,
    record_call, logging_error, lift, mbind, M_bind, mret, M_ret; simpl.

Ltac run_device_path :=
  unfold save_device, __save_device_to_DS, get_device_details,
    device_try_except, device_bigquery_save, datastore_save_with_key,
    datastore_get_by_key, device_call, device_logging_error,
    mbind, MD_bind, mret, MD_ret; simpl.


(** * Properties *)

(** ** The order of Python scalars *)

Lemma ascii_compare_refl a : Ascii.compare a a = Eq.
Proof. unfold Ascii.compare. apply N.compare_refl. Qed.

Lemma ascii_compare_lt_trans a b c :
  Ascii.compare a b = Lt -> Ascii.compare b c = Lt -> Ascii.compare a c = Lt.
Proof. unfold Ascii.compare. rewrite !N.compare_lt_iff. apply N.lt_trans. Qed.

Lemma string_compare_lt_trans s1 : forall s2 s3,
  String.compare s1 s2 = Lt -> String.compare s2 s3 = Lt ->
  String.compare s1 s3 = Lt.
Proof.
  induction s1 as [|a s1 IH]; intros [|b s2] [|c s3]; simpl; try done.
  destruct (Ascii.compare a b) eqn:Hab; try done;
    destruct (Ascii.compare b c) eqn:Hbc; try done; intros H1 H2.
  - apply Ascii.compare_eq_iff in Hab, Hbc. subst.
    rewrite ascii_compare_refl. eauto.
  - apply Ascii.compare_eq_iff in Hab. subst. by rewrite Hbc.
  - apply Ascii.compare_eq_iff in Hbc. subst. by rewrite Hab.
  - by rewrite (ascii_compare_lt_trans a b c).
Qed.

Lemma string_leb_trans a b c :
  String.leb a b = true -> String.leb b c = true -> String.leb a c = true.
Proof.
  unfold String.leb.
  destruct (String.compare a b) eqn:Hab; try done;
    destruct (String.compare b c) eqn:Hbc; try done; intros _ _.
  - apply String.compare_eq_iff in Hab. subst. by rewrite Hbc.
  - apply String.compare_eq_iff in Hab. subst. by rewrite Hbc.
  - apply String.compare_eq_iff in Hbc. subst. by rewrite Hab.
  - by rewrite (string_compare_lt_trans a b c).
Qed.

Lemma string_ltb_false_leb s t : String.ltb s t = false -> String.leb t s = true.
Proof.
  unfold String.ltb, String.leb. rewrite (String.compare_antisym s t).
  by destruct (String.compare t s).
Qed.

Lemma string_ltb_true_leb s t : String.ltb s t = true -> String.leb s t = true.
Proof. unfold String.ltb, String.leb. by destruct (String.compare s t). Qed.

Lemma string_compare_refl s : String.compare s s = Eq.
Proof.
  pose proof (String.compare_antisym s s) as H.
  by destruct (String.compare s s).
Qed.

(** Numbers other than NaN are totally ordered. *)

Lemma float_le_trans a b c :
  float_le a b = true -> float_le b c = true -> float_le a c = true.
Proof. float_cases. Qed.

Lemma float_lt_false_le a b :
  a <> FNaN -> b <> FNaN -> float_lt a b = false -> float_le b a = true.
Proof. float_cases. Qed.

Lemma float_lt_le a b : float_lt a b = true -> float_le a b = true.
Proof. float_cases. Qed.

Lemma float_eq_refl a : a <> FNaN -> float_eq a a = true.
Proof. float_cases. Qed.

Lemma float_eq_sym a b : float_eq a b = true -> float_eq b a = true.
Proof. float_cases. Qed.

Lemma float_eq_trans a b c :
  float_eq a b = true -> float_eq b c = true -> float_eq a c = true.
Proof. float_cases. Qed.

Lemma float_eq_le a b : float_eq a b = true -> float_le a b = true.
Proof. float_cases. Qed.

Lemma float_lt_not_both_eq a b v :
  float_lt a b = true -> float_eq a v = true -> float_eq b v = true -> False.
Proof. float_cases. Qed.

(** What a comparison of two values comes down to. *)

Lemma py_lt_inv a b r :
  py_lt a b = Ok r ->
  (exists s t, a = PStr s /\ b = PStr t /\ r = String.ltb s t) \/
  (exists x y, num_of a = Some x /\ num_of b = Some y /\ r = float_lt x y).
Proof.
  destruct a, b; py_unfold; intros; simplify_eq; eauto 10.
Qed.

Lemma py_ge_inv a b r :
  py_ge a b = Ok r ->
  (exists s t, a = PStr s /\ b = PStr t /\ r = String.leb t s) \/
  (exists x y, num_of a = Some x /\ num_of b = Some y /\ r = float_le y x).
Proof.
  destruct a, b; py_unfold; intros; simplify_eq; eauto 10.
Qed.

Lemma py_eq_inv a b :
  py_eq a b = true ->
  (a = PNone /\ b = PNone) \/
  (exists s, a = PStr s /\ b = PStr s) \/
  (exists x y, num_of a = Some x /\ num_of b = Some y /\ float_eq x y = true).
Proof.
  destruct a, b; py_unfold; intros H; try discriminate; eauto 10.
  apply String.eqb_eq in H. subst. eauto.
Qed.

Lemma py_lt_num a b x y :
  num_of a = Some x -> num_of b = Some y -> py_lt a b = Ok (float_lt x y).
Proof. destruct a, b; py_unfold; intros; simplify_eq; done. Qed.

Lemma py_ge_num a b x y :
  num_of a = Some x -> num_of b = Some y -> py_ge a b = Ok (float_le y x).
Proof. destruct a, b; py_unfold; intros; simplify_eq; done. Qed.

Lemma py_eq_num a b x y :
  num_of a = Some x -> num_of b = Some y -> py_eq a b = float_eq x y.
Proof. destruct a, b; py_unfold; intros; simplify_eq; done. Qed.

Lemma num_of_class a x : num_of a = Some x -> class_of a = Some CNum.
Proof. destruct a; py_unfold; intros; simplify_eq; done. Qed.

Lemma num_of_not_nan a x : num_of a = Some x -> is_nan a = false -> x <> FNaN.
Proof.
  destruct a as [| | |[| |]|]; py_unfold; intros; simplify_eq; done.
Qed.

Lemma py_lt_class a b r :
  py_lt a b = Ok r -> exists k, class_of a = Some k /\ class_of b = Some k.
Proof.
  intros [(s & t & -> & -> & _)|(x & y & Hx & Hy & _)]%py_lt_inv.
  - by exists CStr.
  - exists CNum. eauto using num_of_class.
Qed.

Lemma py_ge_class a b r :
  py_ge a b = Ok r -> exists k, class_of a = Some k /\ class_of b = Some k.
Proof.
  intros [(s & t & -> & -> & _)|(x & y & Hx & Hy & _)]%py_ge_inv.
  - by exists CStr.
  - exists CNum. eauto using num_of_class.
Qed.

Lemma py_lt_same_class a b k :
  class_of a = Some k -> class_of b = Some k -> exists r, py_lt a b = Ok r.
Proof. destruct a, b; py_unfold; intros; simplify_eq; eauto. Qed.

Lemma py_lt_false_ge a b :
  is_nan a = false -> is_nan b = false ->
  py_lt a b = Ok false -> py_ge a b = Ok true.
Proof.
  intros Ha Hb [(s & t & -> & -> & H)|(x & y & Hx & Hy & H)]%py_lt_inv.
  - simpl. f_equal. by apply string_ltb_false_leb.
  - rewrite (py_ge_num _ _ _ _ Hx Hy). f_equal.
    apply float_lt_false_le; eauto using num_of_not_nan.
Qed.

Lemma py_lt_true_ge a b : py_lt a b = Ok true -> py_ge b a = Ok true.
Proof.
  intros [(s & t & -> & -> & H)|(x & y & Hx & Hy & H)]%py_lt_inv.
  - simpl. f_equal. by apply string_ltb_true_leb.
  - rewrite (py_ge_num _ _ _ _ Hy Hx). f_equal. by apply float_lt_le.
Qed.

Lemma py_ge_trans a b c :
  py_ge a b = Ok true -> py_ge b c = Ok true -> py_ge a c = Ok true.
Proof.
  intros [(s & t & -> & -> & H1)|(x & y & Hx & Hy & H1)]%py_ge_inv
         [(s' & t' & ? & -> & H2)|(x' & y' & Hx' & Hy' & H2)]%py_ge_inv;
    simplify_eq.
  - simpl. f_equal. by eapply string_leb_trans.
  - rewrite (py_ge_num _ _ _ _ Hx Hy'). f_equal. by eapply float_le_trans.
Qed.

Lemma py_eq_refl v : is_nan v = false -> py_eq v v = true.
Proof.
  destruct v as [|b|n|f|s]; py_unfold; intros H; try done.
  - by apply float_eq_refl.
  - by apply float_eq_refl.
  - apply float_eq_refl. by destruct f.
  - apply String.eqb_refl.
Qed.

Lemma py_is_or_eq_refl v : py_is_or_eq v v = true.
Proof.
  destruct (is_nan v) eqn:Hv.
  - by destruct v as [| | |[| |]|].
  - rewrite <-(py_eq_refl v Hv). by destruct v as [| | |[| |]|].
Qed.

Lemma py_is_or_eq_eq a b :
  py_is_or_eq a b = true -> is_nan a = false -> py_eq a b = true.
Proof. by destruct a as [| | |[| |]|], b as [| | |[| |]|]. Qed.

Lemma dict_eq_refl (d : record) : dict_eq d d = true.
Proof.
  unfold dict_eq. rewrite Nat.eqb_refl. simpl.
  apply forallb_forall. intros [k v] Hkv. simpl.
  apply list_elem_of_In, elem_of_map_to_list in Hkv. rewrite Hkv.
  apply py_is_or_eq_refl.
Qed.

Lemma has_ordered_time_inv r :
  has_ordered_time r ->
  exists t, r !! "time" = Some t /\ t <> PNone /\ is_nan t = false.
Proof.
  intros (t & k & Ht & Hk & Hn). exists t. repeat split; [done| |done].
  intros Heq. by subst.
Qed.

Lemma has_ordered_time_not_nan r :
  has_ordered_time r -> is_nan (dict_get r "time") = false.
Proof.
  intros (t & Ht & _ & Hn)%has_ordered_time_inv.
  unfold dict_get. by rewrite Ht.
Qed.

Lemma reading_time s v : reading s v !! "time" = Some (PStr s).
Proof. unfold reading. by rewrite lookup_insert_eq. Qed.

Lemma has_ordered_time_reading s v : has_ordered_time (reading s v).
Proof. exists (PStr s), CStr. split; [apply reading_time|done]. Qed.

Lemma rows_Forall (P : record -> Prop) (l : list record) :
  Forall P l -> forall r, JsonText r ∈ JsonText <$> l -> P r.
Proof.
  intros Hl r Hr. apply list_elem_of_fmap in Hr as (x & [= ->] & Hx).
  rewrite Forall_forall in Hl. auto.
Qed.

Lemma three_readings_have_ordered_time :
  Forall has_ordered_time three_readings.
Proof. repeat constructor; apply has_ordered_time_reading. Qed.

(** ** Lists: [remove] and the sort *)

Lemma res_bind_Ok {A B} (f : A -> res B) (m : res A) b :
  m ≫= f = Ok b <-> exists a, m = Ok a /\ f a = Ok b.
Proof.
  destruct m; simpl; split; intros H; eauto.
  - by destruct H as (? & [= ->] & ?).
  - done.
  - by destruct H as (? & ? & ?).
Qed.

Lemma list_remove_sublist x l : forall l',
  list_remove x l = Ok l' -> l' `sublist_of` l.
Proof.
  induction l as [|y l IH]; intros l' H; simpl in H; [done|].
  destruct (dict_eq y x).
  - injection H as <-. by apply sublist_cons.
  - apply res_bind_Ok in H as (l'' & H1 & [= <-]). apply sublist_skip; auto.
Qed.

Lemma list_remove_length x l : forall l',
  list_remove x l = Ok l' -> length l = S (length l').
Proof.
  induction l as [|y l IH]; intros l' H; simpl in H; [done|].
  destruct (dict_eq y x).
  - by injection H as <-.
  - apply res_bind_Ok in H as (l'' & H1 & [= <-]). simpl. f_equal; auto.
Qed.

Lemma remove_duplicates_loop_sublist rounds : forall i previous_ts l out,
  remove_duplicates_loop rounds i previous_ts l = Ok out -> out `sublist_of` l.
Proof.
  induction rounds as [|n IH]; intros i p l out H; simpl in H.
  { by injection H as <-. }
  destruct (l !! i) as [d|]; [|by injection H as <-].
  apply res_bind_Ok in H as (t & Ht & H).
  destruct (py_eq t p).
  - apply res_bind_Ok in H as (l' & Hl' & H).
    etrans; [by eapply IH|by eapply list_remove_sublist].
  - apply res_bind_Ok in H as (t' & Ht' & H). by eapply IH.
Qed.

(** One round per item is enough: more rounds change nothing. *)
Lemma remove_duplicates_loop_rounds n : forall m i previous_ts l,
  length l - i <= n -> length l - i <= m ->
  remove_duplicates_loop n i previous_ts l =
  remove_duplicates_loop m i previous_ts l.
Proof.
  induction n as [|n IH]; intros m i p l Hn Hm.
  - assert (l !! i = None) as Hi by (apply lookup_ge_None; lia).
    destruct m; simpl; by rewrite ?Hi.
  - destruct m as [|m].
    + assert (l !! i = None) as Hi by (apply lookup_ge_None; lia).
      simpl. by rewrite Hi.
    + simpl. destruct (l !! i) as [d|] eqn:Hi; [|done].
      apply lookup_lt_Some in Hi.
      destruct (dict_getitem d "time") as [t|e]; simpl; [|done].
      destruct (py_eq t p).
      * destruct (list_remove d l) as [l'|e] eqn:Hr; simpl; [|done].
        apply list_remove_length in Hr. apply IH; lia.
      * apply IH; lia.
Qed.

Lemma insert_desc_perm x l : forall l',
  insert_desc x l = Ok l' -> l' ≡ₚ x :: l.
Proof.
  induction l as [|y l IH]; intros l' H; simpl in H.
  { by injection H as <-. }
  apply res_bind_Ok in H as ([|] & Hlt & H).
  - apply res_bind_Ok in H as (r & Hr & [= <-]).
    rewrite (IH _ Hr). apply Permutation_swap.
  - by injection H as <-.
Qed.

Lemma insert_desc_sorted x l : forall l',
  is_nan x.1 = false -> Forall (fun y : keyed => is_nan y.1 = false) l ->
  insert_desc x l = Ok l' -> StronglySorted desc l -> StronglySorted desc l'.
Proof.
  induction l as [|y l IH]; intros l' Hx Hl H Hs; simpl in H.
  { injection H as <-. repeat constructor. }
  apply StronglySorted_cons in Hs as [Hy Hs].
  apply Forall_cons in Hl as [Hny Hl].
  apply res_bind_Ok in H as ([|] & Hlt & H).
  - apply res_bind_Ok in H as (r & Hr & [= <-]).
    apply StronglySorted_cons. split; [|by eapply IH].
    rewrite (insert_desc_perm _ _ _ Hr). constructor; [|done].
    by apply py_lt_true_ge.
  - injection H as <-. apply py_lt_false_ge in Hlt; [|done..].
    apply StronglySorted_cons. split.
    + constructor; [done|]. eapply Forall_impl; [exact Hy|].
      intros z Hz. by eapply py_ge_trans.
    + by apply StronglySorted_cons.
Qed.

Lemma sort_desc_perm l : forall s, sort_desc l = Ok s -> s ≡ₚ l.
Proof.
  induction l as [|x l IH]; intros s H; simpl in H.
  { by injection H as <-. }
  apply res_bind_Ok in H as (s' & Hs' & H).
  rewrite (insert_desc_perm _ _ _ H). by rewrite (IH _ Hs').
Qed.

Lemma sort_desc_sorted l : forall s,
  Forall (fun y : keyed => is_nan y.1 = false) l ->
  sort_desc l = Ok s -> StronglySorted desc s.
Proof.
  induction l as [|x l IH]; intros s Hl H; simpl in H.
  { injection H as <-. constructor. }
  apply Forall_cons in Hl as [Hx Hl].
  apply res_bind_Ok in H as (s' & Hs' & H).
  eapply insert_desc_sorted; [exact Hx| |exact H|by eapply IH].
  by rewrite (sort_desc_perm _ _ Hs').
Qed.

(** A sort of two or more items compares every key with another one. *)
Lemma sort_desc_classes l : forall s,
  sort_desc l = Ok s -> 2 <= length l ->
  Forall (fun x : keyed => is_Some (class_of x.1)) l.
Proof.
  induction l as [|x l IH]; intros s H Hlen; simpl in H; [constructor|].
  apply res_bind_Ok in H as (s' & Hs' & H).
  pose proof (sort_desc_perm _ _ Hs') as Hperm.
  destruct s' as [|z s'].
  { apply Permutation_nil_l in Hperm. subst. simpl in Hlen. lia. }
  simpl in H. apply res_bind_Ok in H as (b & Hlt & _).
  apply py_lt_class in Hlt as (k & Hkx & Hkz).
  constructor; [by rewrite Hkx|].
  destruct l as [|y [|y' l]]; [constructor| |eapply IH; [done|simpl; lia]].
  apply Permutation_singleton_r in Hperm. injection Hperm as ->.
  constructor; [by rewrite Hkz|constructor].
Qed.

(** ** The read path *)

Section SortedLists.
Context {A : Type} (R : relation A).

Lemma StronglySorted_sublist (l k : list A) :
  l `sublist_of` k -> StronglySorted R k -> StronglySorted R l.
Proof.
  induction 1 as [|x l k Hlk IH|x l k Hlk IH]; intros Hk; [done|..];
    apply StronglySorted_cons in Hk as [Hx Hk].
  - apply StronglySorted_cons. split; [|auto].
    apply Forall_forall. intros y Hy.
    eapply Forall_forall; [exact Hx|]. by eapply elem_of_sublist.
  - auto.
Qed.

Lemma StronglySorted_lookup_lt (l : list A) : forall i j a b,
  StronglySorted R l -> i < j -> l !! i = Some a -> l !! j = Some b -> R a b.
Proof.
  induction l as [|x l IH]; intros i j a b Hs Hij Ha Hb; [done|].
  apply StronglySorted_cons in Hs as [Hx Hs].
  destruct j as [|j]; [lia|]. simpl in Hb.
  destruct i as [|i]; simpl in Ha.
  - injection Ha as ->. eapply Forall_lookup in Hx; eauto.
  - eapply (IH i j); eauto with lia.
Qed.

End SortedLists.

Lemma desc_time_ge (x y : keyed) :
  x.1 = dict_get x.2 "time" -> y.1 = dict_get y.2 "time" ->
  desc x y -> time_ge x.2 y.2.
Proof.
  unfold desc, time_ge, dict_get. intros -> -> H.
  destruct (x.2 !! "time") as [ta|], (y.2 !! "time") as [tb|]; simpl in H.
  - eauto.
  - by py_cases ta.
  - done.
  - done.
Qed.

Lemma sorted_reverse_perm l key s :
  sorted_reverse l key = Ok s -> s ≡ₚ l.
Proof.
  unfold sorted_reverse. intros H.
  apply res_bind_Ok in H as (s0 & Hs0 & [= <-]).
  apply sort_desc_perm in Hs0. rewrite Hs0.
  rewrite <-list_fmap_compose. simpl. by rewrite list_fmap_id.
Qed.

Lemma sorted_reverse_descending l s :
  Forall (fun r => is_nan (dict_get r "time") = false) l ->
  sorted_reverse l (fun r => dict_get r "time") = Ok s ->
  StronglySorted time_ge s.
Proof.
  unfold sorted_reverse. intros Hl H.
  apply res_bind_Ok in H as (s0 & Hs0 & [= <-]).
  assert (Forall (fun x : keyed => x.1 = dict_get x.2 "time") s0) as Hkeys.
  { rewrite (sort_desc_perm _ _ Hs0). apply Forall_fmap.
    by apply Forall_forall. }
  apply sort_desc_sorted in Hs0.
  2:{ apply Forall_forall. intros x Hx.
      apply (list_elem_of_fmap (fun r => (dict_get r "time", r)))
        in Hx as (r & -> & Hr).
      rewrite Forall_forall in Hl. by apply Hl. }
  induction Hs0 as [|x s0 Hs0 IH Hx]; [constructor|].
  apply Forall_cons in Hkeys as [Hkx Hkeys].
  simpl. apply StronglySorted_cons. split; [|auto].
  apply Forall_fmap, Forall_forall. intros y Hy. simpl.
  apply desc_time_ge; [done|..].
  - eapply Forall_forall in Hkeys; eauto.
  - eapply Forall_forall in Hx; eauto.
Qed.

(** A sort of two or more items compares every key: all belong to one class. *)
Lemma sorted_reverse_classes l key s :
  sorted_reverse l key = Ok s -> 2 <= length l ->
  Forall (fun r => is_Some (class_of (key r))) l.
Proof.
  unfold sorted_reverse. intros H Hlen.
  apply res_bind_Ok in H as (s0 & Hs0 & _).
  apply sort_desc_classes in Hs0; [|by rewrite length_map].
  rewrite Forall_forall in Hs0.
  apply Forall_forall. intros r Hr. apply (Hs0 (key r, r)).
  apply (list_elem_of_fmap (fun r => (key r, r))). eauto.
Qed.

Lemma decode_rows_Ok rows : forall acc l,
  decode_rows rows acc = Ok l ->
  exists l0 : list record, l = (acc ++ l0)%list /\ rows = JsonText <$> l0.
Proof.
  induction rows as [|row rows IH]; intros acc l H; simpl in H.
  { injection H as <-. exists []. by rewrite app_nil_r. }
  apply res_bind_Ok in H as (r & Hr & H).
  destruct row as [r'|doc]; simpl in Hr; [|done]. injection Hr as ->.
  apply IH in H as (l0 & -> & ->). exists (r :: l0).
  by rewrite <-app_assoc.
Qed.

Lemma series_of_rows_descending rows out :
  (forall r, JsonText r ∈ rows -> is_nan (dict_get r "time") = false) ->
  series_of_rows rows = Ok out -> StronglySorted time_ge out.
Proof.
  unfold series_of_rows, remove_duplicate_timestamps. intros Hrows H.
  apply res_bind_Ok in H as (l & Hl & H).
  apply decode_rows_Ok in Hl as (l0 & -> & ->). simpl in H.
  apply res_bind_Ok in H as (s & Hs & H).
  apply sorted_reverse_descending in Hs.
  2:{ apply Forall_forall. intros r Hr. apply Hrows.
      apply list_elem_of_fmap. eauto. }
  apply remove_duplicates_loop_sublist in H.
  by eapply StronglySorted_sublist.
Qed.

Lemma series_of_rows_missing_time rows r :
  JsonText r ∈ rows -> r !! "time" = None ->
  exists e, series_of_rows rows = Raise e.
Proof.
  intros Hin Hr. unfold series_of_rows.
  destruct (decode_rows rows []) as [l|e] eqn:Hdec; simpl; [|eauto].
  apply decode_rows_Ok in Hdec as (l0 & -> & ->). simpl.
  apply list_elem_of_fmap in Hin as (r' & [= <-] & Hin).
  destruct (sorted_reverse l0 _) as [s|e] eqn:Hs; simpl; [|eauto].
  destruct (decide (2 <= length l0)) as [Hlen|Hlen].
  - eapply sorted_reverse_classes in Hs; [|done].
    eapply Forall_forall in Hs; [|exact Hin].
    unfold dict_get in Hs. rewrite Hr in Hs. simpl in Hs. by destruct Hs.
  - destruct l0 as [|r0 [|r1 l0]]; simpl in Hlen; [|clear Hlen|lia].
    + by apply elem_of_nil in Hin.
    + apply list_elem_of_singleton in Hin as <-.
      injection Hs as <-. unfold remove_duplicate_timestamps. simpl.
      unfold dict_getitem. rewrite Hr. simpl. eauto.
Qed.

Section ReadPath.
Context {World : Type} (env : Stores World).

Lemma get_computed_weather_data_run self start_date end_date device hourly st :
  get_computed_weather_data env self start_date end_date device hourly st =
  let (r, w) := store_get_sharded_entity_range env (__kind self) "computed"
                  device start_date end_date (world st) in
  (r ≫= series_of_rows,
   Build_state w (trace st ++
     [EGetShardedEntityRange (__kind self) "computed" device start_date
        end_date r])).
Proof.
  unfold get_computed_weather_data, datastore_get_sharded_entity_range,
    record_call, series_of_rows, lift, mbind, M_bind.
  destruct (store_get_sharded_entity_range _ _ _ _ _ _ _) as [[rows|e] w];
    simpl; [|done].
  destruct (decode_rows rows []) as [l|e]; simpl; [|done].
  by destruct (sorted_reverse l _).
Qed.

End ReadPath.

(** ** The read path returns on well-formed data *)

Lemma list_remove_returns x l : x ∈ l -> exists l', list_remove x l = Ok l'.
Proof.
  induction l as [|y l IH]; intros Hx; [by apply elem_of_nil in Hx|].
  simpl. destruct (dict_eq y x) eqn:Hyx; [eauto|].
  apply elem_of_cons in Hx as [->|Hx].
  - by rewrite dict_eq_refl in Hyx.
  - destruct (IH Hx) as [l' ->]. simpl. eauto.
Qed.

Lemma insert_desc_returns k x l :
  class_of x.1 = Some k -> Forall (fun y : keyed => class_of y.1 = Some k) l ->
  exists l', insert_desc x l = Ok l'.
Proof.
  intros Hx. induction 1 as [|y l Hy Hl IH]; simpl; [eauto|].
  destruct (py_lt_same_class _ _ _ Hx Hy) as [[|] ->]; simpl; [|eauto].
  destruct IH as [l' ->]. simpl. eauto.
Qed.

Lemma sort_desc_returns k l :
  Forall (fun y : keyed => class_of y.1 = Some k) l ->
  exists s, sort_desc l = Ok s.
Proof.
  induction 1 as [|x l Hx Hl IH]; simpl; [eauto|].
  destruct IH as [s Hs]. rewrite Hs. simpl.
  eapply insert_desc_returns; [done|].
  by rewrite (sort_desc_perm _ _ Hs).
Qed.

Lemma remove_duplicates_loop_returns rounds : forall i previous_ts l,
  Forall (fun r : record => is_Some (r !! "time")) l ->
  exists out, remove_duplicates_loop rounds i previous_ts l = Ok out.
Proof.
  induction rounds as [|n IH]; intros i p l Hl; simpl; [eauto|].
  destruct (l !! i) as [d|] eqn:Hi; [|eauto].
  assert (d ∈ l) as Hd by (apply list_elem_of_lookup; eauto).
  pose proof Hl as Hl'. rewrite Forall_forall in Hl'.
  destruct (Hl' d Hd) as [t Ht].
  unfold dict_getitem. rewrite Ht. simpl.
  destruct (py_eq t p); [|by apply IH].
  destruct (list_remove_returns d l Hd) as [l' Hr]. rewrite Hr. simpl.
  apply IH. apply Forall_forall. intros r Hr'. apply Hl'.
  eapply elem_of_sublist; [done|]. by eapply list_remove_sublist.
Qed.

Lemma decode_rows_JsonText (l0 : list record) : forall acc,
  decode_rows (JsonText <$> l0) acc = Ok (acc ++ l0)%list.
Proof.
  induction l0 as [|r l0 IH]; intros acc; simpl.
  - by rewrite app_nil_r.
  - rewrite IH. by rewrite <-app_assoc.
Qed.

(** When every fetched record has a time and the times are all numbers or all
    strings, the rows are sorted and filtered without a fault. *)
Lemma series_of_rows_returns k (l : list record) :
  Forall (has_time_of k) l ->
  exists out, series_of_rows (JsonText <$> l) = Ok out.
Proof.
  intros Hl. unfold series_of_rows.
  rewrite decode_rows_JsonText. simpl.
  assert (exists s, sorted_reverse l (fun r => dict_get r "time") = Ok s)
    as [s Hs].
  { unfold sorted_reverse.
    destruct (sort_desc_returns k
                (map (fun r => (dict_get r "time", r)) l)) as [s0 ->].
    - apply Forall_forall. intros x Hx.
      apply (list_elem_of_fmap (fun r => (dict_get r "time", r)))
        in Hx as (r & -> & Hr).
      rewrite Forall_forall in Hl. destruct (Hl r Hr) as (t & Ht & Hk).
      simpl. unfold dict_get. by rewrite Ht.
    - simpl. eauto. }
  rewrite Hs. simpl. apply remove_duplicates_loop_returns.
  rewrite (sorted_reverse_perm _ _ _ Hs).
  eapply Forall_impl; [exact Hl|]. intros r (t & Ht & _). eauto.
Qed.

(** ** The sort is stable

    Items whose keys are equal leave the sort in the order they entered it:
    for every value [v], the items with a key equal to [v] are the same list
    before and after. *)

Lemma py_lt_not_both_eq a b v :
  py_lt a b = Ok true -> py_eq a v = true -> py_eq b v = true -> False.
Proof.
  intros [(s & t & -> & -> & Hlt)|(x & y & Hx & Hy & Hlt)]%py_lt_inv Ha Hb.
  - destruct v; py_unfold; try discriminate.
    apply String.eqb_eq in Ha, Hb. subst.
    unfold String.ltb in Hlt. by rewrite string_compare_refl in Hlt.
  - apply py_eq_inv in Ha as [[-> _]|[(? & -> & _)|(x' & z & Hx' & Hz & Ha)]];
      [done..|].
    apply py_eq_inv in Hb as [[-> _]|[(? & -> & _)|(y' & z' & Hy' & Hz' & Hb)]];
      [done..|].
    simplify_eq. by eapply float_lt_not_both_eq.
Qed.

Lemma insert_desc_stable v x l : forall l',
  insert_desc x l = Ok l' ->
  List.filter (fun y : keyed => py_eq y.1 v) l'
  = List.filter (fun y : keyed => py_eq y.1 v) (x :: l).
Proof.
  induction l as [|y l IH]; intros l' H; simpl in H.
  { by injection H as <-. }
  apply res_bind_Ok in H as ([|] & Hlt & H).
  - apply res_bind_Ok in H as (r & Hr & [= <-]).
    simpl. rewrite (IH _ Hr). simpl.
    destruct (py_eq x.1 v) eqn:Hx, (py_eq y.1 v) eqn:Hy; try done.
    by destruct (py_lt_not_both_eq _ _ _ Hlt Hx Hy).
  - by injection H as <-.
Qed.

Lemma sort_desc_stable v l : forall s,
  sort_desc l = Ok s ->
  List.filter (fun y : keyed => py_eq y.1 v) s
  = List.filter (fun y : keyed => py_eq y.1 v) l.
Proof.
  induction l as [|x l IH]; intros s H; simpl in H.
  { by injection H as <-. }
  apply res_bind_Ok in H as (s' & Hs' & H).
  rewrite (insert_desc_stable v _ _ _ H). simpl. by rewrite (IH _ Hs').
Qed.

Lemma filter_keyed (key : record -> pyval) v (s : list keyed) :
  Forall (fun x : keyed => x.1 = key x.2) s ->
  map snd (List.filter (fun y : keyed => py_eq y.1 v) s)
  = List.filter (fun r => py_eq (key r) v) (map snd s).
Proof.
  induction 1 as [|x s Hx Hs IH]; simpl; [done|].
  rewrite <-Hx. destruct (py_eq x.1 v); simpl; by rewrite IH.
Qed.

Lemma sorted_reverse_stable l key s v :
  sorted_reverse l key = Ok s ->
  List.filter (fun r => py_eq (key r) v) s
  = List.filter (fun r => py_eq (key r) v) l.
Proof.
  unfold sorted_reverse. intros H.
  apply res_bind_Ok in H as (s0 & Hs0 & [= <-]).
  assert (Forall (fun x : keyed => x.1 = key x.2) s0) as Hkeys.
  { rewrite (sort_desc_perm _ _ Hs0). apply Forall_fmap.
    by apply Forall_forall. }
  rewrite <-(filter_keyed key v s0 Hkeys).
  rewrite (sort_desc_stable v _ _ Hs0).
  rewrite (filter_keyed key);
    [|change map with (@fmap list _); apply Forall_fmap; by apply Forall_forall].
  by rewrite map_map, map_id.
Qed.

(** Every record of the result is one of the fetched records, as it was
    fetched: the result is a sublist of the sorted rows. *)
Lemma series_of_rows_sublist (l : list record) out :
  series_of_rows (JsonText <$> l) = Ok out ->
  exists s,
    sorted_reverse l (fun r => dict_get r "time") = Ok s /\
    s ≡ₚ l /\ out `sublist_of` s.
Proof.
  unfold series_of_rows. rewrite decode_rows_JsonText. simpl. intros H.
  apply res_bind_Ok in H as (s & Hs & H). exists s.
  split; [done|]. split; [by eapply sorted_reverse_perm|].
  by eapply remove_duplicates_loop_sublist.
Qed.

Example scenario_series :
  series_of_rows
    [JsonText (reading jan2 10); JsonText (reading jan1 5);
     JsonText (reading jan2 99)]
  = Ok [reading jan2 10; reading jan1 5].
Proof. vm_compute. reflexivity. Qed.

(** ** The write path *)

Section WritePath.
Context {World : Type} (env : Stores World).

Lemma save_DS_never_raises self data_type device_name data st :
  exists (b : bool) (new : list event) (w' : World),
    __save_DS env self data_type device_name data st
      = (Ok b, Build_state w' (trace st ++ new)) /\
    (existsb store_raised new = true -> b = false).
Proof.
  run_write_path.
  destruct data_type as [t|], device_name as [n|], data as [d|]; simpl;
    try (eexists _, [_], _; split; [reflexivity|done]).
  destruct (store_save_dict_to_entity env _ _ _ _ _) as [[[]|e] w2]; simpl;
    rewrite <-?app_assoc; simpl.
  - eexists _, [_], _; split; [reflexivity|done].
  - eexists _, [_; _], _; split; [reflexivity|done].
Qed.

(** C7: [save_computed] returns a boolean on every input and for every
    behaviour of the two stores; when a store call of the run raised, the
    boolean is [False]. *)
Theorem save_computed_never_raises self timestamp name data st :
  exists (b : bool) (new : list event) (w' : World),
    save_computed env self timestamp name data st
      = (Ok b, Build_state w' (trace st ++ new)) /\
    (existsb store_raised new = true -> b = false).
Proof.
  run_write_path.
  destruct timestamp as [t|], name as [n|], data as [d|]; simpl;
    try (eexists _, [_], _; split; [reflexivity|done]).
  destruct (size d); simpl;
    [eexists _, [_], _; split; [reflexivity|done]|].
  destruct (store_bigquery_save env _ _ _ _ _) as [[[|]|e] w1]; simpl.
  - destruct (store_save_dict_to_entity env _ _ _ _ _) as [[[]|e] w2]; simpl;
      rewrite <-?app_assoc; simpl.
    + eexists _, [_; _], _; split; [reflexivity|done].
    + eexists _, [_; _; _; _], _; split; [reflexivity|done].
  - rewrite <-?app_assoc; simpl.
    eexists _, [_; _], _; split; [reflexivity|done].
  - rewrite <-?app_assoc; simpl.
    eexists _, [_; _], _; split; [reflexivity|done].
Qed.

(** C8: [save_computed(timestamp=None, name="d1", data={"t":1})] returns
    [False]; it logs the invalid arguments and calls neither store. *)
Theorem save_computed_missing_timestamp self st :
  exists new,
    save_computed env self None (Some "d1") (Some {[ "t" := PInt 1 ]}) st
      = (Ok false, Build_state (world st) (trace st ++ new)) /\
    new = [ELogError (__name self ++ " save_computed: invalid args")] /\
    existsb is_store_call new = false.
Proof. eexists. split; [reflexivity|]. done. Qed.

(** C10: with valid arguments the first call of [save_computed] is the
    BigQuery save; unless that save returns success, [save_computed] returns
    [False] and no datastore write follows. *)
Theorem save_computed_datastore_after_bigquery self timestamp name data st :
  0 <> size data ->
  exists r w post (b : bool) st',
    store_bigquery_save env "computed" name timestamp data (world st) = (r, w) /\
    save_computed env self (Some timestamp) (Some name) (Some data) st
      = (Ok b, st') /\
    trace st' = (trace st ++
      EBigquerySave "computed" name timestamp data r :: post)%list /\
    (r <> Ok true -> b = false /\ existsb is_datastore_write post = false).
Proof.
  intros Hsize. run_write_path.
  destruct (size data); [done|]; simpl.
  destruct (store_bigquery_save env _ _ _ _ _) as [[[|]|e] w1]; simpl.
  - destruct (store_save_dict_to_entity env _ _ _ _ _) as [[[]|e] w2]; simpl;
      rewrite <-?app_assoc; simpl.
    + eexists _, _, [_], _, _; repeat split; done.
    + eexists _, _, [_; _; _], _, _; repeat split; done.
  - rewrite <-?app_assoc; simpl.
    eexists _, _, [_], _, _; repeat split; done.
  - rewrite <-?app_assoc; simpl.
    eexists _, _, [_], _, _; repeat split; done.
Qed.

End WritePath.

(** A BigQuery save that raises, and one that succeeds before a datastore
    write that raises: both end in [False]. *)
Example save_computed_bigquery_raises :
  (save_computed
     (fixed_stores (Ok []) (Raise (StoreError "ServiceUnavailable" "503")) (Ok tt))
     weather (Some jan2) (Some "d1") (Some (reading jan2 10)) start).1
  = Ok false.
Proof. vm_compute. reflexivity. Qed.

Example save_computed_datastore_raises :
  save_computed
    (fixed_stores (Ok []) (Ok true) (Raise (StoreError "DeadlineExceeded" "504")))
    weather (Some jan2) (Some "d1") (Some (reading jan2 10)) start
  = (Ok false,
     Build_state tt
       [EBigquerySave "computed" "d1" jan2 (reading jan2 10) (Ok true);
        ESaveDictToEntity (Some "Weather") "d1" "computed"
          (JsonText (reading jan2 10))
          (Raise (StoreError "DeadlineExceeded" "504"));
        ELogError "weather_data.py __save_DS: 504";
        ELogError "weather_data.py save_computed: DS save failed."]).
Proof. vm_compute. reflexivity. Qed.

Example save_computed_succeeds :
  (save_computed (reads []) weather (Some jan2) (Some "d1")
     (Some (reading jan2 10)) start).1
  = Ok true.
Proof. vm_compute. reflexivity. Qed.

Lemma save_computed_datastore_after_bigquery_witness :
  exists r w post (b : bool) st',
    store_bigquery_save (fixed_stores (Ok []) (Ok false) (Ok tt))
      "computed" "d1" jan2 (reading jan2 10) (world start) = (r, w) /\
    save_computed (fixed_stores (Ok []) (Ok false) (Ok tt)) weather
      (Some jan2) (Some "d1") (Some (reading jan2 10)) start = (Ok b, st') /\
    trace st' = (trace start ++
      EBigquerySave "computed" "d1" jan2 (reading jan2 10) r :: post)%list /\
    (r <> Ok true -> b = false /\ existsb is_datastore_write post = false).
Proof.
  apply (save_computed_datastore_after_bigquery
           (fixed_stores (Ok []) (Ok false) (Ok tt)) weather jan2 "d1"
           (reading jan2 10) start).
  vm_compute. discriminate.
Defined.

(** ** The read path: claims *)

Section ReadPathClaims.
Context {World : Type} (env : Stores World).

(** C2, as amended: when the time of every fetched record is a string, or a
    number other than NaN, whatever [get_computed_weather_data] returns is in
    descending order of time: of two records of the output, the earlier one
    has a time greater than or equal to the time of the later one. *)
Theorem get_computed_weather_data_descending
    self start_date end_date device hourly st rows w' out st' :
  store_get_sharded_entity_range env (__kind self) "computed" device
    start_date end_date (world st) = (Ok rows, w') ->
  (forall r, JsonText r ∈ rows -> has_ordered_time r) ->
  get_computed_weather_data env self start_date end_date device hourly st
    = (Ok out, st') ->
  forall i j a b,
    i < j -> out !! i = Some a -> out !! j = Some b -> time_ge a b.
Proof.
  intros Hrows Htimes. rewrite get_computed_weather_data_run, Hrows. simpl.
  intros [= Hout _]; intros i j a b Hij Ha Hb.
  apply series_of_rows_descending in Hout.
  2:{ intros x Hx. by apply has_ordered_time_not_nan, Htimes. }
  by eapply (StronglySorted_lookup_lt time_ge out i j).
Qed.

(** C4: on the three payloads of the scenario the result has two records, the
    newer first: the one of 2024-01-02T00:05 (with [t] 10 or 99), then
    [{"time":"2024-01-01T00:00","t":5}]. *)
Theorem get_computed_weather_data_scenario
    self start_date end_date device hourly st w' :
  store_get_sharded_entity_range env (__kind self) "computed" device
    start_date end_date (world st)
  = (Ok [JsonText (reading "2024-01-02T00:05" 10);
         JsonText (reading "2024-01-01T00:00" 5);
         JsonText (reading "2024-01-02T00:05" 99)], w') ->
  exists first second st',
    get_computed_weather_data env self start_date end_date device hourly st
      = (Ok [first; second], st') /\
    first !! "time" = Some (PStr "2024-01-02T00:05") /\
    (first !! "t" = Some (PInt 10) \/ first !! "t" = Some (PInt 99)) /\
    second = reading "2024-01-01T00:00" 5 /\
    time_ge first second.
Proof.
  intros Hrows. rewrite get_computed_weather_data_run, Hrows. simpl.
  change (series_of_rows _) with
    (series_of_rows [JsonText (reading jan2 10); JsonText (reading jan1 5);
                     JsonText (reading jan2 99)]).
  rewrite scenario_series.
  eexists _, _, _. split; [reflexivity|].
  split; [reflexivity|]. split; [by left|]. split; [reflexivity|].
  eexists _, _. split; [reflexivity|]. split; [reflexivity|].
  vm_compute. reflexivity.
Qed.

(** C5: when the store has no payload in the range, the result is the empty
    list and nothing is raised. *)
Theorem get_computed_weather_data_empty
    self start_date end_date device hourly st w' :
  store_get_sharded_entity_range env (__kind self) "computed" device
    start_date end_date (world st) = (Ok [], w') ->
  get_computed_weather_data env self start_date end_date device hourly st
  = (Ok [],
     Build_state w' (trace st ++
       [EGetShardedEntityRange (__kind self) "computed" device start_date
          end_date (Ok [])])).
Proof.
  intros Hrows. by rewrite get_computed_weather_data_run, Hrows.
Qed.

(** C6: a fetched record without a ['time'] key makes the call raise: the
    exception of the sort or of the duplicate-removal loop reaches the
    caller. *)
Theorem get_computed_weather_data_missing_time
    self start_date end_date device hourly st rows w' r :
  store_get_sharded_entity_range env (__kind self) "computed" device
    start_date end_date (world st) = (Ok rows, w') ->
  JsonText r ∈ rows ->
  r !! "time" = None ->
  exists e st',
    get_computed_weather_data env self start_date end_date device hourly st
    = (Raise e, st').
Proof.
  intros Hrows Hin Hr. rewrite get_computed_weather_data_run, Hrows. simpl.
  destruct (series_of_rows_missing_time rows r Hin Hr) as [e ->]. eauto.
Qed.

(** C9: the [hourly] argument has no influence on the result. *)
Theorem get_computed_weather_data_ignores_hourly
    self start_date end_date device st :
  get_computed_weather_data env self start_date end_date device true st
  = get_computed_weather_data env self start_date end_date device false st.
Proof. reflexivity. Qed.

End ReadPathClaims.

(** C1, at a failing input: three payloads with one time.  The loop drops the
    second and, the list being one shorter, never looks at the third: two
    records with the same time are returned. *)
Theorem get_computed_weather_data_keeps_duplicate_time :
  (get_computed_weather_data
     (reads [JsonText (reading jan2 10); JsonText (reading jan2 99);
             JsonText (reading jan2 7)])
     weather "2024-01-02" "2024-01-02" "d1" true start).1
  = Ok [reading jan2 10; reading jan2 7]
  /\ reading jan2 10 !! "time" = reading jan2 7 !! "time".
Proof. split; vm_compute; reflexivity. Qed.

(** C3, at a failing input: two timestamps with two payloads each.  After the
    duplicate of the newer time is removed, the first record of the older
    time is skipped and the second is taken for a new time: both are kept,
    though the second is not the first at its time in the sorted order. *)
Theorem get_computed_weather_data_keeps_later_record :
  let fetched := [reading jan2 10; reading jan2 99;
                  reading jan1 5; reading jan1 6] in
  sorted_reverse fetched (fun r => dict_get r "time") = Ok fetched
  /\ (get_computed_weather_data (reads (JsonText <$> fetched))
        weather "2024-01-01" "2024-01-02" "d1" true start).1
     = Ok [reading jan2 10; reading jan1 5; reading jan1 6].
Proof. split; vm_compute; reflexivity. Qed.

Lemma get_computed_weather_data_descending_witness :
  time_ge (reading jan2 10) (reading jan1 5).
Proof.
  apply (get_computed_weather_data_descending
           (reads [JsonText (reading jan2 10); JsonText (reading jan1 5);
                   JsonText (reading jan2 99)])
           weather "2024-01-01" "2024-01-02" "d1" true start
           [JsonText (reading jan2 10); JsonText (reading jan1 5);
            JsonText (reading jan2 99)] tt
           [reading jan2 10; reading jan1 5]
           (Build_state tt
              [EGetShardedEntityRange (Some "Weather") "computed" "d1"
                 "2024-01-01" "2024-01-02"
                 (Ok [JsonText (reading jan2 10); JsonText (reading jan1 5);
                      JsonText (reading jan2 99)])]))
    with (i := 0) (j := 1).
  - reflexivity.
  - apply (rows_Forall has_ordered_time three_readings),
      three_readings_have_ordered_time.
  - vm_compute. reflexivity.
  - lia.
  - reflexivity.
  - reflexivity.
Defined.

(** C2, as it was stated, fails: of the two payloads [{"time": NaN}] and
    [{"time": 1.0}] both records are returned, and the first has no time
    greater than or equal to the time of the second (in either order of the
    two, [>=] with NaN is false). *)
Lemma get_computed_weather_data_nan_not_descending :
  exists out st' a b,
    fetch [JsonText {[ "time" := PFloat FNaN ]};
           JsonText {[ "time" := PFloat (FFinite 1) ]}] = (Ok out, st') /\
    out !! 0 = Some a /\ out !! 1 = Some b /\ ~ time_ge a b.
Proof.
  eexists [_; _], _, _, _. split; [vm_compute; reflexivity|].
  split; [reflexivity|]. split; [reflexivity|].
  intros (ta & tb & Ha & Hb & Hge).
  vm_compute in Ha, Hb. injection Ha as <-. injection Hb as <-.
  vm_compute in Hge. discriminate.
Qed.

Lemma get_computed_weather_data_scenario_witness :
  exists first second st',
    get_computed_weather_data
      (reads [JsonText (reading "2024-01-02T00:05" 10);
              JsonText (reading "2024-01-01T00:00" 5);
              JsonText (reading "2024-01-02T00:05" 99)])
      weather "2024-01-01" "2024-01-02" "d1" true start
      = (Ok [first; second], st') /\
    first !! "time" = Some (PStr "2024-01-02T00:05") /\
    (first !! "t" = Some (PInt 10) \/ first !! "t" = Some (PInt 99)) /\
    second = reading "2024-01-01T00:00" 5 /\
    time_ge first second.
Proof.
  apply (get_computed_weather_data_scenario
           (reads [JsonText (reading "2024-01-02T00:05" 10);
                   JsonText (reading "2024-01-01T00:00" 5);
                   JsonText (reading "2024-01-02T00:05" 99)])
           weather "2024-01-01" "2024-01-02" "d1" true start tt).
  reflexivity.
Defined.

Lemma get_computed_weather_data_empty_witness :
  get_computed_weather_data (reads []) weather "2024-01-01" "2024-01-02"
    "d1" true start
  = (Ok [],
     Build_state tt
       [EGetShardedEntityRange (Some "Weather") "computed" "d1" "2024-01-01"
          "2024-01-02" (Ok [])]).
Proof.
  apply (get_computed_weather_data_empty (reads []) weather "2024-01-01"
           "2024-01-02" "d1" true start tt).
  reflexivity.
Defined.

Lemma get_computed_weather_data_missing_time_witness :
  exists e st',
    get_computed_weather_data
      (reads [JsonText (reading jan2 10); JsonText {[ "t" := PInt 5 ]}])
      weather "2024-01-01" "2024-01-02" "d1" true start
    = (Raise e, st').
Proof.
  apply (get_computed_weather_data_missing_time
           (reads [JsonText (reading jan2 10); JsonText {[ "t" := PInt 5 ]}])
           weather "2024-01-01" "2024-01-02" "d1" true start
           [JsonText (reading jan2 10); JsonText {[ "t" := PInt 5 ]}] tt
           {[ "t" := PInt 5 ]}).
  - reflexivity.
  - apply list_elem_of_further, list_elem_of_here.
  - vm_compute. reflexivity.
Defined.


(** * Further properties of the code *)

(** ** More on the read path: what the duplicate removal keeps *)

Lemma py_eq_sym a b : py_eq a b = true -> py_eq b a = true.
Proof.
  intros [[-> ->]|[(s & -> & ->)|(x & y & Hx & Hy & H)]]%py_eq_inv.
  - done.
  - py_unfold. apply String.eqb_refl.
  - rewrite (py_eq_num _ _ _ _ Hy Hx). by apply float_eq_sym.
Qed.

Lemma py_eq_trans a b c :
  py_eq a b = true -> py_eq b c = true -> py_eq a c = true.
Proof.
  intros [[-> ->]|[(s & -> & ->)|(x & y & Hx & Hy & H1)]]%py_eq_inv
         [[? ->]|[(s' & ? & ->)|(x' & y' & Hx' & Hy' & H2)]]%py_eq_inv;
    simplify_eq; try done.
  - py_unfold. apply String.eqb_refl.
  - rewrite (py_eq_num _ _ _ _ Hx Hy'). by eapply float_eq_trans.
Qed.

Lemma py_eq_None t : py_eq t PNone = true -> t = PNone.
Proof. by destruct t. Qed.

Lemma py_eq_not_nan a b : py_eq a b = true -> is_nan a = false.
Proof.
  destruct a as [| | |[| |]|]; try done.
  destruct b as [| | |[|[|]|]|]; py_unfold;
    cbv beta iota delta [float_eq float_cmp]; done.
Qed.

Lemma same_time_refl r t :
  r !! "time" = Some t -> is_nan t = false -> same_time r r.
Proof. intros H Hn. exists t, t. auto using py_eq_refl. Qed.

Lemma same_time_trans a b c : same_time a b -> same_time b c -> same_time a c.
Proof.
  intros (ta & tb & Ha & Hb & Hab) (tb' & tc & Hb' & Hc & Hbc).
  simplify_eq. exists ta, tc. eauto using py_eq_trans.
Qed.

Lemma dict_eq_lookup (a b : record) k v :
  dict_eq a b = true -> a !! k = Some v ->
  exists w, b !! k = Some w /\ py_is_or_eq v w = true.
Proof.
  unfold dict_eq. intros H Hk. apply andb_true_iff in H as [_ H].
  rewrite forallb_forall in H.
  assert (In (k, v) (map_to_list a)) as Hin
    by (by apply list_elem_of_In, elem_of_map_to_list).
  apply H in Hin. simpl in Hin. destruct (b !! k) as [w|]; [eauto|done].
Qed.

Lemma list_remove_split x l : forall l',
  list_remove x l = Ok l' ->
  exists l1 y l2,
    l = (l1 ++ y :: l2)%list /\ l' = (l1 ++ l2)%list /\
    dict_eq y x = true /\ Forall (fun z => dict_eq z x = false) l1.
Proof.
  induction l as [|z l IH]; intros l' H; simpl in H; [done|].
  destruct (dict_eq z x) eqn:Hz.
  - injection H as <-. by exists [], z, l.
  - apply res_bind_Ok in H as (l'' & H1 & [= <-]).
    destruct (IH _ H1) as (l1 & y & l2 & -> & -> & Hy & Hl1).
    exists (z :: l1), y, l2. repeat split; auto.
Qed.

(** While the loop runs, some record before the iterator's place carries the
    previous timestamp; so a removal never takes the last record of a time. *)
Lemma remove_duplicates_loop_keeps_times rounds : forall i previous_ts l out,
  Forall has_ordered_time l ->
  (i = 0 /\ previous_ts = PNone) \/
  (exists k r t, k < i /\ l !! k = Some r /\ r !! "time" = Some t /\
                 py_eq t previous_ts = true) ->
  remove_duplicates_loop rounds i previous_ts l = Ok out ->
  forall r, r ∈ l -> exists r', r' ∈ out /\ same_time r r'.
Proof.
  induction rounds as [|n IH]; intros i p l out Hl Hinv H r Hr.
  { simpl in H. injection H as <-. exists r. split; [done|].
    rewrite Forall_forall in Hl. destruct (has_ordered_time_inv _ (Hl r Hr)) as (t & Ht & _ & Hn).
    by eapply same_time_refl. }
  simpl in H. destruct (l !! i) as [d|] eqn:Hi.
  2:{ injection H as <-. exists r. split; [done|].
      rewrite Forall_forall in Hl. destruct (has_ordered_time_inv _ (Hl r Hr)) as (t & Ht & _ & Hn).
      by eapply same_time_refl. }
  pose proof Hl as Hl'. rewrite Forall_forall in Hl'.
  assert (d ∈ l) as Hd by (apply list_elem_of_lookup; eauto).
  destruct (has_ordered_time_inv _ (Hl' d Hd)) as (t & Ht & Hnone & Hnan).
  unfold dict_getitem in H. rewrite Ht in H. simpl in H.
  destruct (py_eq t p) eqn:Htp.
  - destruct Hinv as [[-> ->]|(k & rk & tk & Hk & Hrk & Htk & Hkp)].
    { by apply py_eq_None in Htp. }
    apply res_bind_Ok in H as (l' & Hrem & H).
    destruct (list_remove_split _ _ _ Hrem)
      as (l1 & y & l2 & -> & -> & Hy & Hl1).
    assert (length l1 <= i) as Hj.
    { destruct (decide (length l1 <= i)) as [|Hgt]; [done|].
      rewrite lookup_app_l in Hi by lia.
      rewrite Forall_forall in Hl1.
      pose proof (dict_eq_refl d) as Hdd. rewrite (Hl1 d) in Hdd; [done|].
      apply list_elem_of_lookup. eauto. }
    (* a record of the previous time stays before the next place *)
    assert (exists k' r' t', k' < S i /\ (l1 ++ l2)%list !! k' = Some r' /\
              r' !! "time" = Some t' /\ py_eq t' p = true) as Hinv'.
    { destruct (decide (length l1 = i)) as [Heq|Hne].
      - exists k, rk, tk. repeat split; [lia| |done..].
        rewrite lookup_app_l in Hrk by lia. by rewrite lookup_app_l by lia.
      - exists (i - 1), d, t. repeat split; [lia| |done..].
        rewrite lookup_app_r in Hi by lia.
        rewrite lookup_app_r by lia.
        replace (i - length l1) with (S (i - 1 - length l1)) in Hi by lia.
        done. }
    assert (Forall has_ordered_time (l1 ++ l2)%list) as Hl2.
    { apply Forall_app. apply Forall_app in Hl as [? Hl].
      apply Forall_cons in Hl as [_ ?]. done. }
    apply elem_of_app in Hr as [Hr|Hr];
      [by eapply (IH _ _ _ _ Hl2 (or_intror Hinv') H); apply elem_of_app; left|].
    apply elem_of_cons in Hr as [->|Hr];
      [|by eapply (IH _ _ _ _ Hl2 (or_intror Hinv') H); apply elem_of_app; right].
    (* the removed record: its time is the previous one *)
    destruct Hinv' as (k' & r' & t' & Hk' & Hr' & Ht' & Htp').
    assert (r' ∈ (l1 ++ l2)%list) as Hin' by (apply list_elem_of_lookup; eauto).
    destruct (IH _ _ _ _ Hl2 (or_intror (ex_intro _ k' (ex_intro _ r'
                (ex_intro _ t' (conj Hk' (conj Hr' (conj Ht' Htp'))))))) H r' Hin')
      as (r'' & Hout & Hsame).
    exists r''. split; [done|]. eapply same_time_trans; [|exact Hsame].
    destruct (has_ordered_time_inv y) as (ty & Hty & _ & Hny).
    { apply Hl', elem_of_app. right. by left. }
    destruct (dict_eq_lookup _ _ _ _ Hy Hty) as (w & Hw & Hyw).
    rewrite Ht in Hw. injection Hw as <-.
    apply py_is_or_eq_eq in Hyw; [|done].
    exists ty, t'. repeat split; [done..|].
    eapply py_eq_trans; [exact Hyw|]. eapply py_eq_trans; [exact Htp|].
    by apply py_eq_sym.
  - eapply (IH (S i) t l out Hl); [|exact H|exact Hr].
    right. exists i, d, t. repeat split; [lia|done..|by apply py_eq_refl].
Qed.

Lemma py_eq_ge a b : py_eq a b = true -> a <> PNone -> py_ge b a = Ok true.
Proof.
  intros [[-> ->]|[(s & -> & ->)|(x & y & Hx & Hy & H)]]%py_eq_inv Hn.
  - done.
  - simpl. f_equal. unfold String.leb. by rewrite string_compare_refl.
  - rewrite (py_ge_num _ _ _ _ Hy Hx). f_equal. by apply float_eq_le.
Qed.

Lemma series_of_rows_keeps_times (l : list record) out :
  Forall has_ordered_time l ->
  series_of_rows (JsonText <$> l) = Ok out ->
  forall r, r ∈ l -> exists r', r' ∈ out /\ same_time r r'.
Proof.
  unfold series_of_rows, remove_duplicate_timestamps.
  rewrite decode_rows_JsonText. simpl. intros Hl H r Hr.
  apply res_bind_Ok in H as (s & Hs & H).
  apply sorted_reverse_perm in Hs.
  eapply remove_duplicates_loop_keeps_times; [|by left|exact H|].
  - by rewrite Hs.
  - by rewrite Hs.
Qed.

Lemma distinct_times_perm (l s : list record) :
  s ≡ₚ l -> distinct_times l -> distinct_times s.
Proof.
  intros (_ & f & Hf & Hlookup)%Permutation_inj Hd i j a b Hne Ha Hb.
  rewrite Hlookup in Ha, Hb. apply (Hd (f i) (f j)); [|done..].
  intros Heq. by apply Hf in Heq.
Qed.

Lemma remove_duplicates_loop_distinct rounds : forall i previous_ts l,
  Forall has_time l -> distinct_times l ->
  previous_ts = PNone \/
  (exists k r, k < i /\ l !! k = Some r /\ r !! "time" = Some previous_ts) ->
  remove_duplicates_loop rounds i previous_ts l = Ok l.
Proof.
  induction rounds as [|n IH]; intros i p l Hl Hd Hinv; simpl; [done|].
  destruct (l !! i) as [d|] eqn:Hi; [|done].
  assert (d ∈ l) as Hin by (apply list_elem_of_lookup; eauto).
  rewrite Forall_forall in Hl. destruct (Hl d Hin) as (t & Ht & Hnone).
  unfold dict_getitem. rewrite Ht. simpl.
  assert (py_eq t p = false) as ->.
  { destruct Hinv as [->|(k & rk & Hk & Hrk & Hp)].
    - destruct (py_eq t PNone) eqn:E; [|done]. by apply py_eq_None in E.
    - assert (i <> k) as Hne by lia.
      specialize (Hd i k d rk Hne Hi Hrk).
      unfold dict_get in Hd. by rewrite Ht, Hp in Hd. }
  apply IH; [by apply Forall_forall|done|].
  right. exists i, d. repeat split; [lia|done..].
Qed.

Lemma series_of_rows_distinct (l : list record) out :
  Forall has_time l -> distinct_times l ->
  series_of_rows (JsonText <$> l) = Ok out -> out ≡ₚ l.
Proof.
  unfold series_of_rows, remove_duplicate_timestamps.
  rewrite decode_rows_JsonText. simpl. intros Hl Hd H.
  apply res_bind_Ok in H as (s & Hs & H).
  apply sorted_reverse_perm in Hs.
  rewrite remove_duplicates_loop_distinct in H.
  - injection H as <-. done.
  - by rewrite Hs.
  - by eapply distinct_times_perm.
  - by left.
Qed.

Lemma remove_duplicates_loop_past_end rounds i previous_ts l :
  length l <= i -> remove_duplicates_loop rounds i previous_ts l = Ok l.
Proof.
  intros Hi. destruct rounds; simpl; [done|].
  by rewrite (proj2 (lookup_ge_None l i) Hi).
Qed.

(** A removal is followed by a skipped item: at most every other item goes. *)
Lemma remove_duplicates_loop_half rounds : forall i previous_ts l out,
  remove_duplicates_loop rounds i previous_ts l = Ok out ->
  i <= length l -> length l + i <= 2 * length out + 1.
Proof.
  induction rounds as [|n IH]; intros i p l out H Hi; simpl in H.
  { injection H as <-. lia. }
  destruct (l !! i) as [d|] eqn:Hd; [|injection H as <-; lia].
  apply lookup_lt_Some in Hd.
  apply res_bind_Ok in H as (t & Ht & H).
  destruct (py_eq t p).
  - apply res_bind_Ok in H as (l' & Hl' & H).
    apply list_remove_length in Hl'.
    destruct (decide (S i <= length l')) as [Hle|Hgt].
    + apply IH in H; lia.
    + rewrite remove_duplicates_loop_past_end in H by lia.
      injection H as <-. lia.
  - apply res_bind_Ok in H as (t' & Ht' & H). apply IH in H; lia.
Qed.

Lemma decode_rows_NotJson (l1 : list record) doc rest : forall acc,
  decode_rows ((JsonText <$> l1) ++ NotJson doc :: rest)%list acc
  = Raise (JSONDecodeError doc).
Proof.
  induction l1 as [|r l1 IH]; intros acc; simpl; [done|]. apply IH.
Qed.

Section ReadPathMore.
Context {World : Type} (env : Stores World).

Lemma get_computed_weather_data_Ok
    self start_date end_date device hourly st rows w' out st' :
  store_get_sharded_entity_range env (__kind self) "computed" device
    start_date end_date (world st) = (Ok rows, w') ->
  get_computed_weather_data env self start_date end_date device hourly st
    = (Ok out, st') ->
  exists l : list record,
    rows = JsonText <$> l /\ series_of_rows (JsonText <$> l) = Ok out.
Proof.
  intros Hrows. rewrite get_computed_weather_data_run, Hrows. simpl.
  intros [= H _].
  assert (exists l : list record, rows = JsonText <$> l) as [l ->].
  { unfold series_of_rows in H.
    apply res_bind_Ok in H as (l & Hl & _).
    apply decode_rows_Ok in Hl as (l0 & -> & ->). eauto. }
  eauto.
Qed.

End ReadPathMore.

Lemma has_time_reading s v : has_time (reading s v).
Proof. exists (PStr s). split; [apply reading_time|done]. Qed.

Lemma has_time_of_reading s v : has_time_of CStr (reading s v).
Proof. exists (PStr s). split; [apply reading_time|done]. Qed.

(** ** The read path: further properties *)

Section ReadPathExtras.
Context {World : Type} (env : Stores World).

(** X1: no timestamp is lost.  When every fetched record has a time that is
    neither [None] nor NaN, each of them has its time on some record of the
    result. *)
Theorem get_computed_weather_data_keeps_every_time
    self start_date end_date device hourly st rows w' out st' :
  store_get_sharded_entity_range env (__kind self) "computed" device
    start_date end_date (world st) = (Ok rows, w') ->
  (forall r, JsonText r ∈ rows -> has_ordered_time r) ->
  get_computed_weather_data env self start_date end_date device hourly st
    = (Ok out, st') ->
  forall r, JsonText r ∈ rows -> exists r', r' ∈ out /\ same_time r r'.
Proof.
  intros Hrows Htimes Hrun r Hr.
  destruct (get_computed_weather_data_Ok env _ _ _ _ _ _ _ _ _ _ Hrows Hrun)
    as (l & -> & Hout).
  eapply series_of_rows_keeps_times; [|exact Hout|].
  - apply Forall_forall. intros x Hx. apply Htimes.
    apply list_elem_of_fmap. eauto.
  - apply list_elem_of_fmap in Hr as (x & [= ->] & Hx). done.
Qed.

(** X2: the newest reading comes first.  When every fetched record has a time
    that is neither [None] nor NaN, the first record of the result has a time
    greater than or equal to the time of every fetched record. *)
Theorem get_computed_weather_data_newest_first
    self start_date end_date device hourly st rows w' out st' :
  store_get_sharded_entity_range env (__kind self) "computed" device
    start_date end_date (world st) = (Ok rows, w') ->
  (forall r, JsonText r ∈ rows -> has_ordered_time r) ->
  get_computed_weather_data env self start_date end_date device hourly st
    = (Ok out, st') ->
  forall h r, out !! 0 = Some h -> JsonText r ∈ rows -> time_ge h r.
Proof.
  intros Hrows Htimes Hrun h r Hh Hr.
  destruct (get_computed_weather_data_Ok env _ _ _ _ _ _ _ _ _ _ Hrows Hrun)
    as (l & -> & Hout).
  destruct (has_ordered_time_inv _ (Htimes r Hr)) as (tr & Htr & Hnone & _).
  assert (exists r', r' ∈ out /\ same_time r r')
    as (r' & Hr' & (tr0 & tr' & Htr0 & Htr' & Heq)).
  { eapply series_of_rows_keeps_times; [|exact Hout|].
    - apply Forall_forall. intros x Hx. apply Htimes.
      apply list_elem_of_fmap. eauto.
    - apply list_elem_of_fmap in Hr as (x & [= ->] & Hx). done. }
  rewrite Htr in Htr0. injection Htr0 as <-.
  apply series_of_rows_descending in Hout.
  2:{ intros x Hx. by apply has_ordered_time_not_nan, Htimes. }
  apply list_elem_of_lookup in Hr' as [j Hj].
  destruct j as [|j].
  - rewrite Hh in Hj. injection Hj as ->.
    exists tr', tr. repeat split; [done..|]. by apply py_eq_ge.
  - destruct (StronglySorted_lookup_lt time_ge out 0 (S j) h r' Hout)
      as (th & tr'' & Hth & Htr'' & Hge); [lia|done..|].
    rewrite Htr' in Htr''. injection Htr'' as <-.
    exists th, tr. repeat split; [done..|].
    eapply py_ge_trans; [exact Hge|]. by apply py_eq_ge.
Qed.

(** X3: without duplicates nothing is dropped.  When the fetched records have
    times that are not [None] and pairwise different, the result holds every
    fetched record exactly once. *)
Theorem get_computed_weather_data_distinct_times_all_kept
    self start_date end_date device hourly st (l : list record) w' out st' :
  store_get_sharded_entity_range env (__kind self) "computed" device
    start_date end_date (world st) = (Ok (JsonText <$> l), w') ->
  Forall has_time l -> distinct_times l ->
  get_computed_weather_data env self start_date end_date device hourly st
    = (Ok out, st') ->
  out ≡ₚ l.
Proof.
  intros Hrows Hl Hd. rewrite get_computed_weather_data_run, Hrows. simpl.
  intros [= Hout _]. by eapply series_of_rows_distinct.
Qed.

(** X4: no fault on well-formed data.  When every payload decodes to a record
    with a time and the times are all strings, or all numbers, the call
    returns a list. *)
Theorem get_computed_weather_data_returns
    self start_date end_date device hourly st (l : list record) w' k :
  store_get_sharded_entity_range env (__kind self) "computed" device
    start_date end_date (world st) = (Ok (JsonText <$> l), w') ->
  Forall (has_time_of k) l ->
  exists out st',
    get_computed_weather_data env self start_date end_date device hourly st
    = (Ok out, st').
Proof.
  intros Hrows Hl. rewrite get_computed_weather_data_run, Hrows. simpl.
  destruct (series_of_rows_returns k l Hl) as [out ->]. eauto.
Qed.

(** X5: nothing is invented.  The result is a sub-multiset of the decoded
    payloads: each record of it is a fetched record, unchanged, and none
    occurs more often than it was fetched. *)
Theorem get_computed_weather_data_submultiset
    self start_date end_date device hourly st rows w' out st' :
  store_get_sharded_entity_range env (__kind self) "computed" device
    start_date end_date (world st) = (Ok rows, w') ->
  get_computed_weather_data env self start_date end_date device hourly st
    = (Ok out, st') ->
  exists l : list record, rows = JsonText <$> l /\ out ⊆+ l.
Proof.
  intros Hrows Hrun.
  destruct (get_computed_weather_data_Ok env _ _ _ _ _ _ _ _ _ _ Hrows Hrun)
    as (l & -> & Hout).
  exists l. split; [done|].
  apply series_of_rows_sublist in Hout as (s & _ & Hperm & Hsub).
  rewrite <-Hperm. by apply sublist_submseteq.
Qed.

(** X6: the loop drops at most every other record: a result of [n] records
    comes from at most [2 n + 1] payloads. *)
Theorem get_computed_weather_data_at_least_half
    self start_date end_date device hourly st rows w' out st' :
  store_get_sharded_entity_range env (__kind self) "computed" device
    start_date end_date (world st) = (Ok rows, w') ->
  get_computed_weather_data env self start_date end_date device hourly st
    = (Ok out, st') ->
  length rows <= 2 * length out + 1.
Proof.
  intros Hrows Hrun.
  destruct (get_computed_weather_data_Ok env _ _ _ _ _ _ _ _ _ _ Hrows Hrun)
    as (l & -> & Hout).
  unfold series_of_rows, remove_duplicate_timestamps in Hout.
  rewrite decode_rows_JsonText in Hout. simpl in Hout.
  apply res_bind_Ok in Hout as (s & Hs & Hout).
  apply sorted_reverse_perm in Hs.
  apply remove_duplicates_loop_half in Hout; [|lia].
  rewrite length_fmap, <-Hs. lia.
Qed.

(** X7: one payload that is not JSON fails the whole read: the call raises
    the decode error of the first such payload, whatever the other payloads
    are. *)
Theorem get_computed_weather_data_decode_error
    self start_date end_date device hourly st (l1 : list record) doc rest w' :
  store_get_sharded_entity_range env (__kind self) "computed" device
    start_date end_date (world st)
  = (Ok ((JsonText <$> l1) ++ NotJson doc :: rest)%list, w') ->
  get_computed_weather_data env self start_date end_date device hourly st
  = (Raise (JSONDecodeError doc),
     Build_state w' (trace st ++
       [EGetShardedEntityRange (__kind self) "computed" device start_date
          end_date (Ok ((JsonText <$> l1) ++ NotJson doc :: rest)%list)])).
Proof.
  intros Hrows. rewrite get_computed_weather_data_run, Hrows. simpl.
  unfold series_of_rows. by rewrite decode_rows_NotJson.
Qed.

End ReadPathExtras.

Lemma get_computed_weather_data_keeps_every_time_witness :
  exists r',
    r' ∈ [reading jan2 10; reading jan1 5] /\ same_time (reading jan2 99) r'.
Proof.
  apply (get_computed_weather_data_keeps_every_time
           (reads (JsonText <$> three_readings)) weather "2024-01-01"
           "2024-01-02" "d1" true start (JsonText <$> three_readings) tt
           [reading jan2 10; reading jan1 5]
           (fetched (JsonText <$> three_readings))).
  - reflexivity.
  - apply rows_Forall, three_readings_have_ordered_time.
  - vm_compute. reflexivity.
  - apply list_elem_of_further, list_elem_of_further, list_elem_of_here.
Defined.

Lemma get_computed_weather_data_newest_first_witness :
  time_ge (reading jan2 10) (reading jan1 5).
Proof.
  apply (get_computed_weather_data_newest_first
           (reads (JsonText <$> three_readings)) weather "2024-01-01"
           "2024-01-02" "d1" true start (JsonText <$> three_readings) tt
           [reading jan2 10; reading jan1 5]
           (fetched (JsonText <$> three_readings))).
  - reflexivity.
  - apply rows_Forall, three_readings_have_ordered_time.
  - vm_compute. reflexivity.
  - reflexivity.
  - apply list_elem_of_further, list_elem_of_here.
Defined.

Lemma get_computed_weather_data_distinct_times_all_kept_witness :
  [reading jan2 10; reading jan1 5] ≡ₚ [reading jan1 5; reading jan2 10].
Proof.
  apply (get_computed_weather_data_distinct_times_all_kept
           (reads (JsonText <$> [reading jan1 5; reading jan2 10])) weather
           "2024-01-01" "2024-01-02" "d1" true start
           [reading jan1 5; reading jan2 10] tt
           [reading jan2 10; reading jan1 5]
           (fetched (JsonText <$> [reading jan1 5; reading jan2 10]))).
  - reflexivity.
  - repeat constructor; apply has_time_reading.
  - intros [|[|i]] [|[|j]] a b Hne Ha Hb; try done;
      injection Ha as <-; injection Hb as <-; vm_compute; reflexivity.
  - vm_compute. reflexivity.
Defined.

Lemma get_computed_weather_data_returns_witness :
  exists out st', fetch (JsonText <$> three_readings) = (Ok out, st').
Proof.
  apply (get_computed_weather_data_returns
           (reads (JsonText <$> three_readings)) weather "2024-01-01"
           "2024-01-02" "d1" true start three_readings tt CStr).
  - reflexivity.
  - repeat constructor; apply has_time_of_reading.
Defined.

Lemma get_computed_weather_data_submultiset_witness :
  exists l : list record,
    JsonText <$> three_readings = JsonText <$> l /\
    [reading jan2 10; reading jan1 5] ⊆+ l.
Proof.
  apply (get_computed_weather_data_submultiset
           (reads (JsonText <$> three_readings)) weather "2024-01-01"
           "2024-01-02" "d1" true start (JsonText <$> three_readings) tt
           [reading jan2 10; reading jan1 5]
           (fetched (JsonText <$> three_readings))).
  - reflexivity.
  - vm_compute. reflexivity.
Defined.

Lemma get_computed_weather_data_at_least_half_witness :
  length (JsonText <$> three_readings)
  <= 2 * length [reading jan2 10; reading jan1 5] + 1.
Proof.
  apply (get_computed_weather_data_at_least_half
           (reads (JsonText <$> three_readings)) weather "2024-01-01"
           "2024-01-02" "d1" true start (JsonText <$> three_readings) tt
           [reading jan2 10; reading jan1 5]
           (fetched (JsonText <$> three_readings))).
  - reflexivity.
  - vm_compute. reflexivity.
Defined.

Lemma get_computed_weather_data_decode_error_witness :
  fetch [JsonText (reading jan2 10); NotJson "<html>"; JsonText (reading jan1 5)]
  = (Raise (JSONDecodeError "<html>"),
     fetched [JsonText (reading jan2 10); NotJson "<html>";
              JsonText (reading jan1 5)]).
Proof.
  apply (get_computed_weather_data_decode_error
           (reads [JsonText (reading jan2 10); NotJson "<html>";
                   JsonText (reading jan1 5)])
           weather "2024-01-01" "2024-01-02" "d1" true start
           [reading jan2 10] "<html>" [JsonText (reading jan1 5)] tt).
  reflexivity.
Defined.

(** ** The write path: further properties *)

Section WritePathExtras.
Context {World : Type} (env : Stores World).

(** X8: [save_computed] returns [True] exactly when the three arguments are
    present, the data is not empty, the BigQuery save returned [True] and the
    datastore write returned; both stores were then given the same record,
    BigQuery first. *)
Theorem save_computed_true_iff self timestamp name data st st' :
  save_computed env self timestamp name data st = (Ok true, st') <->
  exists t n d w1 w2,
    timestamp = Some t /\ name = Some n /\ data = Some d /\ size d <> 0 /\
    store_bigquery_save env "computed" n t d (world st) = (Ok true, w1) /\
    store_save_dict_to_entity env (__kind self) n "computed" (JsonText d) w1
      = (Ok tt, w2) /\
    st' = Build_state w2 (trace st ++
            [EBigquerySave "computed" n t d (Ok true);
             ESaveDictToEntity (__kind self) n "computed" (JsonText d)
               (Ok tt)]).
Proof.
  split.
  - run_write_path.
    destruct timestamp as [t|], name as [n|], data as [d|]; simpl; try done.
    destruct (size d) eqn:Hsize; simpl; [done|].
    destruct (store_bigquery_save env _ _ _ _ _) as [[[|]|e] w1] eqn:Hbq;
      simpl; try done.
    destruct (store_save_dict_to_entity env _ _ _ _ _) as [[[]|e] w2] eqn:Hds;
      simpl; try done.
    intros [= <-]. exists t, n, d, w1, w2.
    rewrite Hsize, <-app_assoc. repeat split; done.
  - intros (t & n & d & w1 & w2 & -> & -> & -> & Hsize & Hbq & Hds & ->).
    run_write_path. destruct (size d); [done|]. simpl.
    rewrite Hbq. simpl. unfold json_dumps. rewrite Hds. simpl.
    by rewrite <-app_assoc.
Qed.

(** X9: with a missing timestamp, a missing name, missing or empty data,
    [save_computed] returns [False], logs one error and calls no store. *)
Theorem save_computed_invalid_args self timestamp name data st :
  timestamp = None \/ name = None \/ data = None \/ data = Some ∅ ->
  exists msg,
    save_computed env self timestamp name data st
    = (Ok false, Build_state (world st) (trace st ++ [ELogError msg])).
Proof.
  intros H. run_write_path.
  destruct timestamp as [t|], name as [n|], data as [d|]; simpl; eauto.
  destruct H as [H|[H|[H|H]]]; try done. injection H as ->.
  rewrite map_size_empty. simpl. eauto.
Qed.

(** X10: [save_raw_five_min] never raises and never writes to the datastore;
    it returns [True] exactly when its arguments are valid and its one call,
    the BigQuery save into [raw_five_min], returned [True]. *)
Theorem save_raw_five_min_bigquery_only self timestamp name data st :
  exists (b : bool) (new : list event) (w' : World),
    save_raw_five_min env self timestamp name data st
      = (Ok b, Build_state w' (trace st ++ new)) /\
    existsb is_datastore_write new = false /\
    (b = true <->
     exists t n d,
       timestamp = Some t /\ name = Some n /\ data = Some d /\ size d <> 0 /\
       store_bigquery_save env "raw_five_min" n t d (world st) = (Ok true, w') /\
       new = [EBigquerySave "raw_five_min" n t d (Ok true)]).
Proof.
  run_raw_path.
  destruct timestamp as [t|], name as [n|], data as [d|]; simpl;
    try (eexists _, [_], _; split; [reflexivity|]; split; [done|];
         split; [done|]; by intros (? & ? & ? & ? & ? & ? & ? & ? & ?)).
  destruct (size d) eqn:Hsize; simpl.
  { eexists _, [_], _; split; [reflexivity|]; split; [done|].
    split; [done|]. intros (? & ? & ? & ? & ? & ? & ? & ? & ?).
    simplify_eq. }
  destruct (store_bigquery_save env _ _ _ _ _) as [[[|]|e] w1] eqn:Hbq;
    simpl; rewrite <-?app_assoc; simpl.
  - eexists _, [_], _; split; [reflexivity|]; split; [done|].
    split; [|done]. intros _. exists t, n, d.
    rewrite Hsize. repeat split; done.
  - eexists _, [_; _], _; split; [reflexivity|]; split; [done|].
    split; [done|]. intros (? & ? & ? & ? & ? & ? & ? & ? & ?). done.
  - eexists _, [_; _], _; split; [reflexivity|]; split; [done|].
    split; [done|]. intros (? & ? & ? & ? & ? & ? & ? & ? & ?). done.
Qed.

(** X11: [save_raw_aux] never raises and never writes to the datastore; it
    returns [True] exactly when its arguments are valid and its one call, the
    BigQuery save into [raw_aux], returned [True]. *)
Theorem save_raw_aux_bigquery_only self timestamp name data st :
  exists (b : bool) (new : list event) (w' : World),
    save_raw_aux env self timestamp name data st
      = (Ok b, Build_state w' (trace st ++ new)) /\
    existsb is_datastore_write new = false /\
    (b = true <->
     exists t n d,
       timestamp = Some t /\ name = Some n /\ data = Some d /\ size d <> 0 /\
       store_bigquery_save env "raw_aux" n t d (world st) = (Ok true, w') /\
       new = [EBigquerySave "raw_aux" n t d (Ok true)]).
Proof.
  run_raw_path.
  destruct timestamp as [t|], name as [n|], data as [d|]; simpl;
    try (eexists _, [_], _; split; [reflexivity|]; split; [done|];
         split; [done|]; by intros (? & ? & ? & ? & ? & ? & ? & ? & ?)).
  destruct (size d) eqn:Hsize; simpl.
  { eexists _, [_], _; split; [reflexivity|]; split; [done|].
    split; [done|]. intros (? & ? & ? & ? & ? & ? & ? & ? & ?).
    simplify_eq. }
  destruct (store_bigquery_save env _ _ _ _ _) as [[[|]|e] w1] eqn:Hbq;
    simpl; rewrite <-?app_assoc; simpl.
  - eexists _, [_], _; split; [reflexivity|]; split; [done|].
    split; [|done]. intros _. exists t, n, d.
    rewrite Hsize. repeat split; done.
  - eexists _, [_; _], _; split; [reflexivity|]; split; [done|].
    split; [done|]. intros (? & ? & ? & ? & ? & ? & ? & ? & ?). done.
  - eexists _, [_; _], _; split; [reflexivity|]; split; [done|].
    split; [done|]. intros (? & ? & ? & ? & ? & ? & ? & ? & ?). done.
Qed.

End WritePathExtras.

Lemma save_computed_invalid_args_witness :
  exists msg,
    save_computed (reads []) weather (Some jan2) (Some "d1") None start
    = (Ok false, Build_state (world start) (trace start ++ [ELogError msg])).
Proof.
  apply (save_computed_invalid_args (reads []) weather (Some jan2) (Some "d1")
           None start).
  right. right. by left.
Defined.

(** ** The device registry *)

Lemma dict_get_not_None_size (d : record) k :
  dict_get d k <> PNone -> size d <> 0.
Proof.
  unfold dict_get. intros Hk Hsize. apply map_size_empty_iff in Hsize.
  subst. by rewrite lookup_empty in Hk.
Qed.

Section DeviceExtras.
Context {World : Type} (denv : DeviceStores World).

(** X12: [save_device] returns [True] exactly when the timestamp is present,
    the dict has a name that is not [None], the BigQuery save returned [True]
    and the datastore write under that name returned.  The emptiness test of
    the guard decides nothing: a dict with a name is not empty. *)
Theorem save_device_true_iff self timestamp device_dict st st' :
  save_device denv self timestamp device_dict st = (Ok true, st') <->
  exists t w1 w2,
    timestamp = Some t /\ dict_get device_dict "name" <> PNone /\
    store_device_bigquery_save denv "device" (dict_get device_dict "name") t
      device_dict (dworld st) = (Ok true, w1) /\
    store_save_with_key denv (__kind self) (dict_get device_dict "name")
      (JsonText device_dict) w1 = (Ok tt, w2) /\
    st' = Build_device_state w2 (dtrace st ++
            [EDeviceBigquerySave "device" (dict_get device_dict "name") t
               device_dict (Ok true);
             ESaveWithKey (__kind self) (dict_get device_dict "name")
               (JsonText device_dict) (Ok tt)]).
Proof.
  split.
  - run_device_path.
    destruct timestamp as [t|]; [|by destruct (dict_get device_dict "name")].
    destruct (dict_get device_dict "name") as [|b|n|f|s] eqn:Hname; simpl;
      try done.
    all: destruct (size device_dict) eqn:Hsize; simpl; [done|].
    all: destruct (store_device_bigquery_save denv _ _ _ _ _)
           as [[[|]|e] w1] eqn:Hbq; simpl; try done.
    all: destruct (store_save_with_key denv _ _ _ _)
           as [[[]|e] w2] eqn:Hds; simpl; try done.
    all: intros [= <-]; exists t, w1, w2; rewrite <-app_assoc;
           repeat split; done.
  - intros (t & w1 & w2 & -> & Hname & Hbq & Hds & ->).
    pose proof (dict_get_not_None_size _ _ Hname) as Hsize.
    run_device_path.
    destruct (dict_get device_dict "name") as [|b|n|f|s] eqn:Hn; [done|..].
    all: destruct (size device_dict); [done|]; simpl.
    all: rewrite Hbq; simpl; unfold json_dumps; rewrite Hds; simpl.
    all: by rewrite <-app_assoc.
Qed.

(** X13: without a timestamp, or with a dict that has no name (or the name
    [None]), [save_device] returns [False], logs the invalid arguments and
    calls no store. *)
Theorem save_device_invalid_args self timestamp device_dict st :
  timestamp = None \/ dict_get device_dict "name" = PNone ->
  save_device denv self timestamp device_dict st
  = (Ok false,
     Build_device_state (dworld st)
       (dtrace st ++
          [EDeviceLogError (__name self ++ " save_device: invalid args")])).
Proof.
  intros H. run_device_path.
  destruct timestamp as [t|].
  - destruct H as [H|H]; [done|]. by rewrite H.
  - by destruct (dict_get device_dict "name").
Qed.

(** X14: [save_device] never raises, whatever the stores do; and a datastore
    write of the run comes directly after a BigQuery save that returned
    [True], as the second call. *)
Theorem save_device_never_raises self timestamp device_dict st :
  exists (b : bool) (new : list device_event) (w' : World),
    save_device denv self timestamp device_dict st
      = (Ok b, Build_device_state w' (dtrace st ++ new)) /\
    forall pre ev post,
      new = (pre ++ ev :: post)%list -> is_save_with_key ev = true ->
      exists t,
        pre = [EDeviceBigquerySave "device" (dict_get device_dict "name") t
                 device_dict (Ok true)].
Proof.
  run_device_path.
  assert (forall (e0 : device_event) pre ev post,
            [e0] = (pre ++ ev :: post)%list -> ev = e0) as Hone.
  { intros e0 [|? [|? ?]] ev post; simpl; intros; simplify_eq; done. }
  destruct timestamp as [t|];
    [|destruct (dict_get device_dict "name");
      (eexists _, [_], _; split; [reflexivity|];
       intros pre ev post Heq Hev; apply Hone in Heq; by subst)].
  destruct (dict_get device_dict "name") as [|b|n|f|s] eqn:Hname; simpl.
  { eexists _, [_], _; split; [reflexivity|].
    intros pre ev post Heq Hev; apply Hone in Heq; by subst. }
  all: destruct (size device_dict) eqn:Hsize; simpl;
    [eexists _, [_], _; split; [reflexivity|];
     intros pre ev post Heq Hev; apply Hone in Heq; by subst|].
  all: destruct (store_device_bigquery_save denv _ _ _ _ _)
         as [[[|]|e] w1] eqn:Hbq; simpl.
  all: try destruct (store_save_with_key denv _ _ _ _)
         as [[[]|e'] w2] eqn:Hds; simpl.
  all: rewrite <-?app_assoc; simpl.
  all: eexists _, _, _; (split; [reflexivity|]).
  all: intros [|e1 [|e2 [|e3 [|e4 pre]]]] ev post Heq Hev; simpl in Heq;
         simplify_eq; try done; eauto.
  all: try (destruct pre; done).
Qed.

(** X15: [get_device_details] hands back what the datastore returned for the
    key, an empty dict included, after that one call; an exception of the
    datastore reaches the caller. *)
Theorem get_device_details_is_lookup self device_key st :
  get_device_details denv self device_key st
  = datastore_get_by_key denv (__kind self) device_key st.
Proof.
  run_device_path.
  destruct (store_get_by_key denv _ _ _) as [[details|e] w]; simpl; [|done].
  destruct (size details) eqn:Hsize; simpl; [|done].
  apply map_size_empty_iff in Hsize. by subst.
Qed.

End DeviceExtras.

Example save_device_succeeds :
  save_device (fixed_device_stores (Ok true) (Ok tt)) weather (Some jan2)
    mark2 device_start
  = (Ok true,
     Build_device_state tt
       [EDeviceBigquerySave "device" (PStr "d1") jan2 mark2 (Ok true);
        ESaveWithKey (Some "Weather") (PStr "d1") (JsonText mark2) (Ok tt)]).
Proof. vm_compute. reflexivity. Qed.

Lemma save_device_invalid_args_witness :
  save_device (fixed_device_stores (Ok true) (Ok tt)) weather (Some jan2)
    {[ "model" := PStr "Mark 2" ]} device_start
  = (Ok false,
     Build_device_state (dworld device_start)
       (dtrace device_start ++
          [EDeviceLogError (__name weather ++ " save_device: invalid args")])).
Proof.
  apply (save_device_invalid_args (fixed_device_stores (Ok true) (Ok tt))
           weather (Some jan2) {[ "model" := PStr "Mark 2" ]} device_start).
  right. vm_compute. reflexivity.
Defined.

Section WritePathNoRollback.
Context {World : Type} (env : Stores World).

(** X16: nothing is rolled back.  When the BigQuery save returned [True] and
    the datastore write then raises, [save_computed] returns [False] although
    the row was appended: the world is the one both calls left, and the two
    errors are logged. *)
Theorem save_computed_no_rollback self t n d st w1 w2 e :
  size d <> 0 ->
  store_bigquery_save env "computed" n t d (world st) = (Ok true, w1) ->
  store_save_dict_to_entity env (__kind self) n "computed" (JsonText d) w1
    = (Raise e, w2) ->
  save_computed env self (Some t) (Some n) (Some d) st
  = (Ok false,
     Build_state w2 (trace st ++
       [EBigquerySave "computed" n t d (Ok true);
        ESaveDictToEntity (__kind self) n "computed" (JsonText d) (Raise e);
        ELogError (__name self ++ " __save_DS: " ++ exn_str e);
        ELogError (__name self ++ " save_computed: DS save failed.")])).
Proof.
  intros Hsize Hbq Hds. run_write_path.
  destruct (size d); [done|]. simpl.
  rewrite Hbq. simpl. unfold json_dumps. rewrite Hds. simpl.
  by rewrite <-!app_assoc.
Qed.

End WritePathNoRollback.

Lemma save_computed_no_rollback_witness :
  save_computed
    (fixed_stores (Ok []) (Ok true) (Raise (StoreError "DeadlineExceeded" "504")))
    weather (Some jan2) (Some "d1") (Some (reading jan2 10)) start
  = (Ok false,
     Build_state tt (trace start ++
       [EBigquerySave "computed" "d1" jan2 (reading jan2 10) (Ok true);
        ESaveDictToEntity (__kind weather) "d1" "computed"
          (JsonText (reading jan2 10))
          (Raise (StoreError "DeadlineExceeded" "504"));
        ELogError (__name weather ++ " __save_DS: "
                   ++ exn_str (StoreError "DeadlineExceeded" "504"));
        ELogError (__name weather ++ " save_computed: DS save failed.")])).
Proof.
  apply (save_computed_no_rollback
           (fixed_stores (Ok []) (Ok true)
              (Raise (StoreError "DeadlineExceeded" "504")))
           weather jan2 "d1" (reading jan2 10) start tt tt
           (StoreError "DeadlineExceeded" "504")).
  - vm_compute. discriminate.
  - reflexivity.
  - reflexivity.
Defined.
